(** * JSON-RPC over HTTP transport: the serializer, the POST route and the
      listen/close lifecycle of [JsonRpcServer] (src/server.ts), and the
      pipe, interceptor, guard and module state of the test service
      (src/test-handler.ts).

    The development is a shallow embedding.  JavaScript values are a small
    inductive type, a synchronous computation that may throw is a [Result],
    an awaited promise is a [PromiseState], and the async route handler is a
    function in a small monad that threads the HTTP responses written so
    far.  The calls [listen] and [close] make on the HTTP layer are recorded
    as a trace of [Effect]s. *)

From Stdlib Require Import ZArith List String Ascii Bool Lia DecimalString.
Import ListNotations.

Local Open Scope string_scope.
Local Open Scope Z_scope.
Set Warnings "-register-all".

(* ================================================================== *)
(** ** JavaScript values *)
(* ================================================================== *)

(** The values that flow through the transport.  Numbers are the integers
    (every code of the protocol is one): [Number z] stands for the
    JavaScript number nearest to [z], which is [z] itself up to 2^53 in
    magnitude.  An object is the list of its own properties in insertion
    order, and reading a property takes the first entry with that name. *)
Inductive Value : Type :=
| Undefined
| Null
| Bool (b : bool)
| Number (z : Z)
| String (s : string)
| Array (items : list Value)
| Object (props : list (string * Value)).

(** A synchronous computation: it returns or it throws a value. *)
Inductive Result (A : Type) : Type :=
| Ok (a : A)
| Throw (e : Value).
Arguments Ok {A} a.
Arguments Throw {A} e.

Definition bindR {A B} (r : Result A) (k : A -> Result B) : Result B :=
  match r with
  | Ok a => k a
  | Throw e => Throw e
  end.

Declare Scope js_scope.
Delimit Scope js_scope with js.
Notation "x <- e ;; k" := (bindR e (fun x => k))
  (at level 61, e at next level, right associativity) : js_scope.

(** The object a failed property read or [in] test throws. *)
Definition TypeError (message : string) : Value :=
  Object [("name", String "TypeError"); ("message", String message)].

Fixpoint lookup (k : string) (props : list (string * Value)) : option Value :=
  match props with
  | [] => None
  | (k', v) :: rest => if String.eqb k k' then Some v else lookup k rest
  end.

(** [v.k] for the property names this program reads ([method], [id],
    [params], [code], [data], [message], [value], [error]): reading from
    [undefined] or [null] throws, a missing property reads as [undefined],
    and primitives and arrays carry none of these names. *)
Definition getProp (v : Value) (k : string) : Result Value :=
  match v with
  | Undefined | Null => Throw (TypeError "Cannot read properties of undefined")
  | Object props =>
      match lookup k props with
      | Some x => Ok x
      | None => Ok Undefined
      end
  | _ => Ok Undefined
  end.

(** [k in v]: own-property test on an object; the operator throws on a
    primitive right-hand side. *)
Definition in_op (k : string) (v : Value) : Result bool :=
  match v with
  | Object props =>
      Ok (match lookup k props with Some _ => true | None => false end)
  | Array _ => Ok false
  | _ => Throw (TypeError "Cannot use 'in' operator")
  end.

(** ToBoolean. *)
Definition truthy (v : Value) : bool :=
  match v with
  | Undefined | Null => false
  | Bool b => b
  | Number z => negb (z =? 0)
  | String s => negb (String.eqb s "")
  | Array _ | Object _ => true
  end.

(** [a || b]. *)
Definition or_op (a b : Value) : Value := if truthy a then a else b.

(** [a == null]. *)
Definition nullish (v : Value) : bool :=
  match v with
  | Undefined | Null => true
  | _ => false
  end.

(** *** Numbers as JavaScript holds and prints them *)

Definition two53 : Z := 2 ^ 53.

(** The double nearest to a non-negative integer, ties to the even
    mantissa: an integer up to 2^53 is a double; above, the 53 leading
    bits are kept and the rest is rounded. *)
Definition nearest_double_nonneg (z : Z) : Z :=
  if z <=? two53 then z
  else
    let unit := 2 ^ (Z.log2 z - 52) in
    let m := z / unit in
    let r := z mod unit in
    let half := unit / 2 in
    let m' := if r <? half then m
              else if half <? r then m + 1
              else if Z.even m then m else m + 1 in
    m' * unit.

Definition nearest_double (z : Z) : Z :=
  if z <? 0 then - nearest_double_nonneg (- z) else nearest_double_nonneg z.

(** From 2^1024 on the nearest number is an infinity. *)
Definition is_finite_number (z : Z) : bool :=
  Z.abs (nearest_double z) <? 2 ^ 1024.

(** [a + 1] and [a++] on numbers: the exact sum, rounded. *)
Definition js_increment (z : Z) : Z := nearest_double (z + 1).

Definition decimal (z : Z) : string := NilZero.string_of_int (Z.to_int z).

Definition digit_count (z : Z) : Z := Z.of_nat (String.length (decimal z)).

(** The digits Number::toString prints for the double [d] of [n] decimal
    digits: the least number [k] of digits and the [s] of [k] digits for
    which [s * 10^(n-k)] is a number that rounds to [d], the closest to [d]
    if there are two.  The result is [(s, k, n)]; [n] grows by one when the
    digits round up to a power of ten. *)
Fixpoint shortest_digits (fuel : nat) (k : Z) (d n : Z) : Z * Z * Z :=
  match fuel with
  | O => (d, n, n)
  | S fuel' =>
      let scale := 10 ^ (n - k) in
      let s_lo := d / scale in
      let s_hi := s_lo + 1 in
      let ok_lo := nearest_double_nonneg (s_lo * scale) =? d in
      let ok_hi := nearest_double_nonneg (s_hi * scale) =? d in
      let lo_dist := d - s_lo * scale in
      let hi_dist := s_hi * scale - d in
      let pick_hi :=
        if s_hi =? 10 ^ k then (1, 1, n + 1) else (s_hi, k, n) in
      if ok_lo && ok_hi then
        if lo_dist <? hi_dist then (s_lo, k, n)
        else if hi_dist <? lo_dist then pick_hi
        else if Z.even s_lo then (s_lo, k, n) else pick_hi
      else if ok_lo then (s_lo, k, n)
      else if ok_hi then pick_hi
      else shortest_digits fuel' (k + 1) d n
  end.

Fixpoint zeros (n : nat) : string :=
  match n with
  | O => ""
  | S n' => "0" ++ zeros n'
  end.

(** Number::toString of a non-negative integer double: the digits and
    then zeros up to 21 digits, the exponent form from 1e21 on. *)
Definition Number_toString_nonneg (d : Z) : string :=
  if d <=? two53 then decimal d
  else if 2 ^ 1024 <=? d then "Infinity"
  else
    let n0 := digit_count d in
    let '(s, k, n) := shortest_digits (Z.to_nat n0) 1 d n0 in
    if n <=? 21 then decimal s ++ zeros (Z.to_nat (n - k))
    else
      match decimal s with
      | String.String c EmptyString =>
          String.String c EmptyString ++ "e+" ++ decimal (n - 1)
      | String.String c rest =>
          String.String c EmptyString ++ "." ++ rest ++ "e+" ++ decimal (n - 1)
      | EmptyString => ""
      end.

Definition Number_toString (z : Z) : string :=
  let d := nearest_double z in
  if d <? 0 then "-" ++ Number_toString_nonneg (- d)
  else Number_toString_nonneg d.

(** ToString, as applied by [string + v] to a value parsed from JSON.  An
    array is joined with commas, [null] and [undefined] items printing as
    nothing.  An object prints through [Object.prototype.toString] unless
    it has an own [toString] property, which (not being callable) leaves
    no way to a primitive: the conversion throws. *)
Fixpoint ToString (v : Value) : Result string :=
  match v with
  | Undefined => Ok "undefined"
  | Null => Ok "null"
  | Bool true => Ok "true"
  | Bool false => Ok "false"
  | Number z => Ok (Number_toString z)
  | String s => Ok s
  | Array items =>
      (fix join (l : list Value) : Result string :=
         match l with
         | [] => Ok ""
         | x :: rest =>
             match (if nullish x then Ok "" else ToString x) with
             | Throw e => Throw e
             | Ok sx =>
                 match rest with
                 | [] => Ok sx
                 | _ :: _ =>
                     match join rest with
                     | Throw e => Throw e
                     | Ok sr => Ok (sx ++ "," ++ sr)
                     end
                 end
             end
         end) items
  | Object props =>
      match lookup "toString" props with
      | Some _ => Throw (TypeError "Cannot convert object to primitive value")
      | None => Ok "[object Object]"
      end
  end.

Section KeepDefined.
Variable f : Value -> Value.

(** The properties of an object that [JSON.stringify] writes: those
    whose value is not [undefined], each written through [f]. *)
Fixpoint keep_defined (l : list (string * Value)) : list (string * Value) :=
  match l with
  | [] => []
  | (k, Undefined) :: rest => keep_defined rest
  | (k, x) :: rest => (k, f x) :: keep_defined rest
  end.
End KeepDefined.

(** What [JSON.stringify] keeps of a value nested in an envelope, as the
    value its text parses back to: a property whose value is [undefined] is
    left out of its object, an [undefined] array item is written as
    [null], and so is a number that is not finite. *)
Fixpoint wire (v : Value) : Value :=
  match v with
  | Number z => if is_finite_number z then v else Null
  | Array items =>
      Array (map (fun x => match x with
                           | Undefined => Null
                           | _ => wire x
                           end) items)
  | Object props => Object (keep_defined wire props)
  | _ => v
  end.


(** [k] is an own property of the object [v]. *)
Definition hasField (k : string) (v : Value) : bool :=
  match v with
  | Object props => match lookup k props with Some _ => true | None => false end
  | _ => false
  end.

(* ================================================================== *)
(** ** The response serializer *)
(* ================================================================== *)

(** Modelled from the spec: [CodedRpcException] of src/coded-error.ts,
    which is not part of the sources at hand.  The spec gives a CodedError
    the fields [code], [message] and an optional [data]; the constructor is
    called as [new CodedRpcException(message, code)] by the route. *)
Definition CodedRpcException (message : string) (code : Z) (data : option Value)
  : Value :=
  Object (("message", String message) :: ("code", Number code) ::
          match data with
          | Some d => [("data", d)]
          | None => []
          end).

Local Open Scope js_scope.

(** [serializeResponse(id, response)], src/server.ts lines 53-70. *)
Definition serializeResponse (id response : Value) : Result Value :=
  has_error <- in_op "error" response ;;
  if (has_error : bool) then
    error <- getProp response "error" ;;
    code <- getProp error "code" ;;
    data <- getProp error "data" ;;
    message <- getProp error "message" ;;
    Ok (Object [("jsonrpc", String "2.0");
                ("id", id);
                ("error", Object [("code", or_op code (Number 500));
                                  ("data", data);
                                  ("message", message)])])
  else
    value <- getProp response "value" ;;
    Ok (Object [("jsonrpc", String "2.0"); ("id", id); ("result", value)]).

(** [v.k] when the read does not throw. *)
Definition field (v : Value) (k : string) : Value :=
  match getProp v k with
  | Ok x => x
  | Throw _ => Undefined
  end.

(** The two object literals [serializeResponse] returns. *)
Definition success_envelope (id value : Value) : Value :=
  Object [("jsonrpc", String "2.0"); ("id", id); ("result", value)].

Definition error_envelope (id code data message : Value) : Value :=
  Object [("jsonrpc", String "2.0"); ("id", id);
          ("error", Object [("code", code); ("data", data); ("message", message)])].

(* ================================================================== *)
(** ** Promises, observables and handlers *)
(* ================================================================== *)

(** What an [await] finds: the promise fulfils, rejects, or never
    settles. *)
Inductive PromiseState (A : Type) : Type :=
| Fulfilled (a : A)
| Rejected (e : Value)
| Pending.
Arguments Fulfilled {A} a.
Arguments Rejected {A} e.
Arguments Pending {A}.

(** How an observable ends after the values it emits. *)
Inductive Terminal : Type :=
| Completes
| Errors (e : Value)
| NeverEnds.

Record Observable : Type := mkObservable {
  emits : list Value;
  terminal : Terminal
}.

(** What a handler's promise resolves to: a plain value or an observable
    (an awaited promise is never itself a promise). *)
Inductive Returned : Type :=
| Plain (v : Value)
| Stream (o : Observable).

(** [Server.transformToObservable] of the framework, on an awaited value:
    an observable is passed through, any other value [v] becomes [of(v)]. *)
Definition transformToObservable (r : Returned) : Observable :=
  match r with
  | Stream o => o
  | Plain v => mkObservable [v] Completes
  end.

(** [Observable.toPromise()]: fulfils with the last emitted value
    ([undefined] if there is none) on completion, rejects on error. *)
Definition toPromise (o : Observable) : PromiseState Value :=
  match terminal o with
  | Completes => Fulfilled (last (emits o) Undefined)
  | Errors e => Rejected e
  | NeverEnds => Pending
  end.

(** [p.then(onFulfilled, onRejected)] with callbacks that return. *)
Definition then_ {A B} (p : PromiseState A)
    (onFulfilled : A -> B) (onRejected : Value -> B) : PromiseState B :=
  match p with
  | Fulfilled a => Fulfilled (onFulfilled a)
  | Rejected e => Fulfilled (onRejected e)
  | Pending => Pending
  end.

(** The part of an [express.Request] the transport reads: the parsed JSON
    body and the header accessor [req.get]. *)
Record Request : Type := mkRequest {
  body : Value;
  get : string -> option string
}.

(** An HTTP application the route is mounted on: the adapter handed in
    by the host, or the one [listen] creates with
    [new ExpressAdapter(express())]. *)
Inductive HttpAdapter : Type :=
| HostAdapter (name : string)
| OwnExpressAdapter.

(** A listener, as returned by [app.getHttpServer()] and [app.listen(..)]. *)
Inductive HttpServer : Type :=
| HttpServerOf (app : HttpAdapter).

Definition getHttpServer (app : HttpAdapter) : HttpServer := HttpServerOf app.

(** [class JsonRpcContext], lines 12-18. *)
Record JsonRpcContext : Type := mkJsonRpcContext {
  req : Request;
  server_of_context : HttpServer
}.

Definition getMetadataByKey (ctx : JsonRpcContext) (metadataKey : string)
  : option string :=
  get (req ctx) metadataKey.

(** A registered handler: called with the params and the context, it gives
    a promise of a plain value or of an observable. *)
Definition MessageHandler : Type :=
  Value -> JsonRpcContext -> PromiseState Returned.

(* ================================================================== *)
(** ** The POST route *)
(* ================================================================== *)

(** A response written with [res.status(s).json(payload)]. *)
Record HttpResponse : Type := mkHttpResponse {
  status : Z;
  payload : Value
}.

(** The async route handler: it adds to the responses written so far and
    its promise fulfils, rejects (an exception left the handler) or stays
    pending. *)
Definition Async (A : Type) : Type :=
  list HttpResponse -> list HttpResponse * PromiseState A.

Definition retA {A} (a : A) : Async A := fun sent => (sent, Fulfilled a).

Definition bindA {A B} (m : Async A) (k : A -> Async B) : Async B :=
  fun sent =>
    match m sent with
    | (sent', Fulfilled a) => k a sent'
    | (sent', Rejected e) => (sent', Rejected e)
    | (sent', Pending) => (sent', Pending)
    end.

(** [await p]. *)
Definition await {A} (p : PromiseState A) : Async A := fun sent => (sent, p).

(** A synchronous expression evaluated inside the async function: what it
    throws rejects the function's promise. *)
Definition eval {A} (r : Result A) : Async A :=
  fun sent =>
    match r with
    | Ok a => (sent, Fulfilled a)
    | Throw e => (sent, Rejected e)
    end.

(** [res.status(s).json(v)]. *)
Definition send (s : Z) (v : Value) : Async unit :=
  fun sent => ((sent ++ [mkHttpResponse s v])%list, Fulfilled tt).

Declare Scope async_scope.
Delimit Scope async_scope with async.
Notation "x <- e ;; k" := (bindA e (fun x => k))
  (at level 61, e at next level, right associativity) : async_scope.
Local Open Scope async_scope.

(** The callback mounted by [listen] with
    [app.getInstance().post(path, express.json(), ...)], lines 93-112.
    [getHandlerByPattern] is the registry lookup inherited from the
    framework's [Server]. *)
Definition route (getHandlerByPattern : Value -> option MessageHandler)
    (app : HttpAdapter) (rq : Request) : Async unit :=
  method <- eval (getProp (body rq) "method") ;;
  match getHandlerByPattern method with
  | None =>
      method' <- eval (getProp (body rq) "method") ;;
      text <- eval (ToString method') ;;
      let error :=
        CodedRpcException ("Method not found: " ++ text) 404 None in
      id <- eval (getProp (body rq) "id") ;;
      envelope <- eval (serializeResponse id (Object [("error", error)])) ;;
      send 200 envelope
  | Some handler =>
      let context := mkJsonRpcContext rq (getHttpServer app) in
      params <- eval (getProp (body rq) "params") ;;
      returned <- await (handler params context) ;;
      let observableResult := transformToObservable returned in
      let promiseResult := toPromise observableResult in
      response <- await (then_ promiseResult
                           (fun value => Object [("value", value)])
                           (fun error => Object [("error", error)])) ;;
      id <- eval (getProp (body rq) "id") ;;
      envelope <- eval (serializeResponse id response) ;;
      send 200 envelope
  end.

(** One POST request served from an idle connection. *)
Definition handle (getHandlerByPattern : Value -> option MessageHandler)
    (app : HttpAdapter) (rq : Request) : list HttpResponse * PromiseState unit :=
  route getHandlerByPattern app rq [].

(* ================================================================== *)
(** ** The lifecycle: listen and close *)
(* ================================================================== *)

(** [JsonRpcServerOptions]: the union of the hybrid and the standalone
    options, as the object the constructor receives; a field that is not
    set is [None]. *)
Record JsonRpcServerOptions : Type := mkOptions {
  path : string;
  adapter : option HttpAdapter;
  port : option Z;
  hostname : option string
}.

(** [class JsonRpcServer]: the options, the [server] field (initially
    [null]) and the registry of handlers. *)
Record JsonRpcServer : Type := mkJsonRpcServer {
  options : JsonRpcServerOptions;
  server : option HttpServer;
  getHandlerByPattern : Value -> option MessageHandler
}.

(** [new JsonRpcServer(options)] with the handlers registered on it. *)
Definition new_JsonRpcServer (o : JsonRpcServerOptions)
    (handlers : Value -> option MessageHandler) : JsonRpcServer :=
  mkJsonRpcServer o None handlers.

(** [isHybrid(options)]: [options.adapter !== undefined]. *)
Definition isHybrid (o : JsonRpcServerOptions) : bool :=
  match adapter o with Some _ => true | None => false end.

(** [isStandalone(options)]: [options.port !== undefined]. *)
Definition isStandalone (o : JsonRpcServerOptions) : bool :=
  match port o with Some _ => true | None => false end.

(** Whether a completion callback handed to the HTTP layer gets invoked. *)
Inductive CbReply : Type :=
| CbInvoked
| CbNotInvoked.

(** Modelled from the spec: [invokeAsync] of src/util.ts, which is not part
    of the sources at hand.  The spec has a listener's bind and close take
    a completion callback and exposes that completion as a single
    awaitable: the awaitable completes when the callback is invoked.  The
    argument is what became of the callback in the function passed in. *)
Definition invokeAsync (reply : CbReply) : PromiseState unit :=
  match reply with
  | CbInvoked => Fulfilled tt
  | CbNotInvoked => Pending
  end.

(** The calls the lifecycle makes on its collaborators, in order. *)
Inductive Effect : Type :=
| ENewExpressAdapter
| EInitHttpServer (app : HttpAdapter)
| EPost (app : HttpAdapter) (mount : string)
| EListen (app : HttpAdapter) (on_port : Z) (on_host : option string)
| EServerClose (srv : HttpServer)
| ECallback.

(** The error Node throws from a bind on a port outside 0..65535. *)
Definition RangeError (message : string) : Value :=
  Object [("name", String "RangeError"); ("message", String message)].

(** The HTTP layer underneath.  [app.listen(port[, hostname], cb)] either
    returns the listener, and the layer says whether [cb] is invoked, or
    throws (as Node does for a port outside 0..65535);
    [server.close(cb)] says whether [cb] is invoked.  Both may change the
    layer's own state. *)
Class HttpLayer (W : Type) : Type := {
  app_listen :
    HttpAdapter -> Z -> option string -> W -> Result (HttpServer * CbReply) * W;
  server_close : HttpServer -> W -> CbReply * W
}.

(** The outcome of one lifecycle call. *)
Record Run (W : Type) : Type := mkRun {
  this_after : JsonRpcServer;
  layer_after : W;
  trace : list Effect;
  settled : PromiseState unit
}.
Arguments mkRun {W}.
Arguments this_after {W}.
Arguments layer_after {W}.
Arguments trace {W}.
Arguments settled {W}.

Section Lifecycle.
Context {W : Type} `{HttpLayer W}.

Definition set_server (this : JsonRpcServer) (s : option HttpServer)
  : JsonRpcServer :=
  mkJsonRpcServer (options this) s (getHandlerByPattern this).

(** [listen(callback)], lines 83-127.  The two type guards are the
    matches on [adapter] (isHybrid) and on [port] (isStandalone).  When
    [app.listen] throws, the assignment to [this.server] is not reached,
    and the exception leaves the function given to [invokeAsync]: whether
    that passes it on or turns it into a rejection, the [await] throws, so
    [listen] rejects and [callback] is not called. *)
Definition listen (this : JsonRpcServer) (w : W) : Run W :=
  let o := options this in
  let '(app, t1) :=
    match adapter o with
    | Some a => (a, [])
    | None => (OwnExpressAdapter,
               [ENewExpressAdapter; EInitHttpServer OwnExpressAdapter])
    end in
  let t2 := (t1 ++ [EPost app (path o)])%list in
  let '(outcome, this1, w1, t3) :=
    match port o with
    | Some p =>
        match hostname o with
        | Some h =>
            match app_listen app p (Some h) w with
            | (Ok (srv, r), w') =>
                (Ok r, set_server this (Some srv), w',
                 (t2 ++ [EListen app p (Some h)])%list)
            | (Throw e, w') =>
                (Throw e, this, w', (t2 ++ [EListen app p (Some h)])%list)
            end
        | None =>
            match app_listen app p None w with
            | (Ok (srv, r), w') =>
                (Ok r, set_server this (Some srv), w',
                 (t2 ++ [EListen app p None])%list)
            | (Throw e, w') =>
                (Throw e, this, w', (t2 ++ [EListen app p None])%list)
            end
        end
    | None => (Ok CbInvoked, this, w, t2)
    end in
  match outcome with
  | Throw e => mkRun this1 w1 t3 (Rejected e)
  | Ok reply =>
      match invokeAsync reply with
      | Fulfilled _ => mkRun this1 w1 (t3 ++ [ECallback])%list (Fulfilled tt)
      | Rejected e => mkRun this1 w1 t3 (Rejected e)
      | Pending => mkRun this1 w1 t3 Pending
      end
  end.

(** [close()], lines 129-134. *)
Definition close (this : JsonRpcServer) (w : W) : Run W :=
  match port (options this) with
  | Some _ =>
      let '(reply, w1, t) :=
        match server this with
        | None => (CbNotInvoked, w, [])
        | Some srv =>
            let '(r, w') := server_close srv w in
            (r, w', [EServerClose srv])
        end in
      mkRun this w1 t (invokeAsync reply)
  | None => mkRun this w [] (Fulfilled tt)
  end.

(** [close()] called [n] times, one call after the other; the outcomes
    are listed in call order. *)
Fixpoint close_times (n : nat) (this : JsonRpcServer) (w : W)
  : list (PromiseState unit) :=
  match n with
  | O => []
  | S n' =>
      let r := close this w in
      settled r :: close_times n' (this_after r) (layer_after r)
  end.

End Lifecycle.

(* ================================================================== *)
(** ** Fixtures: the handlers of src/test-handler.ts and a small HTTP layer *)
(* ================================================================== *)

(** [TestService.invoke]: [return Promise.resolve(params)]. *)
Definition invoke_handler : MessageHandler :=
  fun params _ => Fulfilled (Plain params).

(** [TestService.testError], as it reaches the route: an observable that
    errors with
    [CodedRpcException("RPC EXCEPTION", 403, {fromService, params})]. *)
Definition testError_handler : MessageHandler :=
  fun params _ =>
    Fulfilled (Stream (mkObservable []
      (Errors (CodedRpcException "RPC EXCEPTION" 403
                 (Some (Object [("fromService", String "Test Service");
                                ("params", params)])))))).

(** [TestService.injectContext]: reads the Authorization metadata. *)
Definition injectContext_handler : MessageHandler :=
  fun _ context =>
    Fulfilled (Plain (Object [("key",
      match getMetadataByKey context "Authorization" with
      | Some s => String s
      | None => Undefined
      end)])).

(** A handler with nothing to return: its promise resolves to
    [undefined]. *)
Definition void_handler : MessageHandler :=
  fun _ _ => Fulfilled (Plain Undefined).

(** A handler whose own promise rejects, as
    [async () => { throw new TypeError("Accidental server error") }]
    registered without a wrapper. *)
Definition rejecting_handler : MessageHandler :=
  fun _ _ => Rejected (TypeError "Accidental server error").

(** A handler whose observable errors with [null]. *)
Definition null_error_handler : MessageHandler :=
  fun _ _ => Fulfilled (Stream (mkObservable [] (Errors Null))).

Definition test_registry (pattern : Value) : option MessageHandler :=
  match pattern with
  | String name =>
      if String.eqb name "test.invoke" then Some invoke_handler
      else if String.eqb name "test.testError" then Some testError_handler
      else if String.eqb name "test.injectContext" then Some injectContext_handler
      else if String.eqb name "test.void" then Some void_handler
      else if String.eqb name "test.rejecting" then Some rejecting_handler
      else if String.eqb name "test.nullError" then Some null_error_handler
      else None
  | _ => None
  end.

Definition no_headers : string -> option string := fun _ => None.

Definition rpc_request (id method : string) (params : Value) : Request :=
  mkRequest (Object [("id", String id); ("method", String method);
                     ("params", params)]) no_headers.

Definition HttpAdapter_eqb (a b : HttpAdapter) : bool :=
  match a, b with
  | HostAdapter x, HostAdapter y => String.eqb x y
  | OwnExpressAdapter, OwnExpressAdapter => true
  | _, _ => false
  end.

Definition HttpServer_eqb (s t : HttpServer) : bool :=
  match s, t with
  | HttpServerOf a, HttpServerOf b => HttpAdapter_eqb a b
  end.

(** An HTTP layer that keeps the list of bound listeners and invokes every
    completion callback; like Node, it throws from a bind on a port
    outside 0..65535. *)
#[local] Instance ListLayer : HttpLayer (list HttpServer) := {
  app_listen app p _ bound :=
    if (0 <=? p) && (p <=? 65535) then
      (Ok (HttpServerOf app, CbInvoked), HttpServerOf app :: bound)
    else (Throw (RangeError "Port should be >= 0 and < 65536"), bound);
  server_close srv bound :=
    (CbInvoked, filter (fun s => negb (HttpServer_eqb s srv)) bound)
}.

Definition nest_adapter : HttpAdapter := HostAdapter "nest".

Definition hybrid_options : JsonRpcServerOptions :=
  mkOptions "/rpc" (Some nest_adapter) None None.

Definition standalone_options : JsonRpcServerOptions :=
  mkOptions "/rpc" None (Some 8080) None.

Definition both_options : JsonRpcServerOptions :=
  mkOptions "/rpc" (Some nest_adapter) (Some 8080) None.

Definition bad_port_options : JsonRpcServerOptions :=
  mkOptions "/rpc" None (Some 65536) None.

(* ================================================================== *)
(** ** The test service's collaborators (src/test-handler.ts) *)
(* ================================================================== *)

(** The module state [DecorationsState], typed as [initialModuleState]
    types it (lines 19-27); a count [z] stands for the JavaScript number
    nearest to [z]. *)
Record DecorationsState : Type := mkDecorationsState {
  pipeCalled : bool;
  guardCaled : bool;
  interceptorCalled : bool;
  serviceConstructorCount : Z;
  interceptorConstructorCount : Z
}.

Definition initialModuleState : DecorationsState :=
  mkDecorationsState false false false 0 0.

(** [resetDecorationsState()], lines 29-31:
    [Object.assign(DecorationsState, initialModuleState)] overwrites each of
    the five fields. *)
Definition resetDecorationsState (s : DecorationsState) : DecorationsState :=
  mkDecorationsState
    (pipeCalled initialModuleState) (guardCaled initialModuleState)
    (interceptorCalled initialModuleState)
    (serviceConstructorCount initialModuleState)
    (interceptorConstructorCount initialModuleState).

(** Code that reads and writes the module state. *)
Definition Test (A : Type) : Type := DecorationsState -> A * DecorationsState.

(** [TestPipe.transform(value, _metadata)], lines 35-38. *)
Definition TestPipe_transform (value : Value) : Test Value :=
  fun s =>
    (value,
     mkDecorationsState true (guardCaled s) (interceptorCalled s)
       (serviceConstructorCount s) (interceptorConstructorCount s)).

(** [new TestInterceptor()], lines 43-45. *)
Definition TestInterceptor_constructor : Test unit :=
  fun s =>
    (tt,
     mkDecorationsState (pipeCalled s) (guardCaled s) (interceptorCalled s)
       (serviceConstructorCount s)
       (js_increment (interceptorConstructorCount s))).

(** [TestInterceptor.intercept(_context, next)], lines 47-53: the flag is
    set, then [next.handle()] runs and its result is returned. *)
Definition TestInterceptor_intercept {A : Type} (next_handle : Test A) : Test A :=
  fun s =>
    next_handle
      (mkDecorationsState (pipeCalled s) (guardCaled s) true
         (serviceConstructorCount s) (interceptorConstructorCount s)).

(** [new TestService()], lines 91-93. *)
Definition TestService_constructor : Test unit :=
  fun s =>
    (tt,
     mkDecorationsState (pipeCalled s) (guardCaled s) (interceptorCalled s)
       (js_increment (serviceConstructorCount s))
       (interceptorConstructorCount s)).

(** The part of the framework's [ExecutionContext] the guard reads:
    [getType()], [switchToHttp().getRequest()] and
    [switchToRpc().getContext()]. *)
Record ExecutionContext : Type := mkExecutionContext {
  getType : string;
  switchToHttp_getRequest : Request;
  switchToRpc_getContext : JsonRpcContext
}.

(** A [string | undefined] as a value. *)
Definition of_metadata (m : option string) : Value :=
  match m with
  | Some s => String s
  | None => Undefined
  end.

(** [getMetadataFromContext(ctx, key)], lines 56-69: a [switch] with the
    cases ["http"] and ["rpc"] and no default. *)
Definition getMetadataFromContext (ctx : ExecutionContext) (key : string)
  : option string :=
  if String.eqb (getType ctx) "http" then
    get (switchToHttp_getRequest ctx) key
  else if String.eqb (getType ctx) "rpc" then
    getMetadataByKey (switchToRpc_getContext ctx) key
  else None.

(** [TestGuard.canActivate(ctx)], lines 73-81. *)
Definition TestGuard_canActivate (ctx : ExecutionContext) : bool :=
  let authMetadata := getMetadataFromContext ctx "Authorization" in
  if truthy (of_metadata authMetadata) then true else false.

(** The operations of the file on the module state, to speak about any
    sequence of them. *)
Inductive Op : Type :=
| OpPipeTransform (value : Value)
| OpInterceptorConstructor
| OpIntercept
| OpGuardCanActivate (ctx : ExecutionContext)
| OpServiceConstructor
| OpReset.

Definition step (op : Op) (s : DecorationsState) : DecorationsState :=
  match op with
  | OpPipeTransform value => snd (TestPipe_transform value s)
  | OpInterceptorConstructor => snd (TestInterceptor_constructor s)
  | OpIntercept => snd (TestInterceptor_intercept (fun s' => (tt, s')) s)
  | OpGuardCanActivate ctx => let _ := TestGuard_canActivate ctx in s
  | OpServiceConstructor => snd (TestService_constructor s)
  | OpReset => resetDecorationsState s
  end.

Fixpoint run (ops : list Op) (s : DecorationsState) : DecorationsState :=
  match ops with
  | [] => s
  | op :: rest => run rest (step op s)
  end.

Definition is_reset (op : Op) : bool :=
  match op with OpReset => true | _ => false end.

Definition is_pipe (op : Op) : bool :=
  match op with OpPipeTransform _ => true | _ => false end.

Definition is_intercept (op : Op) : bool :=
  match op with OpIntercept => true | _ => false end.

Definition is_service_new (op : Op) : bool :=
  match op with OpServiceConstructor => true | _ => false end.

Definition is_interceptor_new (op : Op) : bool :=
  match op with OpInterceptorConstructor => true | _ => false end.

(** The operations that follow the last reset. *)
Fixpoint since_reset (ops : list Op) : list Op :=
  match ops with
  | [] => []
  | op :: rest =>
      if existsb is_reset rest then since_reset rest
      else if is_reset op then rest
      else op :: rest
  end.

(** The execution context of an RPC call served for the request [rq]
    through the adapter [app]: the context the route builds. *)
Definition rpc_execution_context (app : HttpAdapter) (rq : Request)
  : ExecutionContext :=
  mkExecutionContext "rpc" rq (mkJsonRpcContext rq (getHttpServer app)).

(* ================================================================== *)
(** ** Helpers to state lifecycle facts *)
(* ================================================================== *)

(** The application [listen] mounts the route on. *)
Definition listen_app (o : JsonRpcServerOptions) : HttpAdapter :=
  match adapter o with
  | Some a => a
  | None => OwnExpressAdapter
  end.

Definition is_post (e : Effect) : bool :=
  match e with EPost _ _ => true | _ => false end.

Definition is_listen (e : Effect) : bool :=
  match e with EListen _ _ _ => true | _ => false end.

Definition is_callback (e : Effect) : bool :=
  match e with ECallback => true | _ => false end.

Definition is_undefined (v : Value) : bool :=
  match v with Undefined => true | _ => false end.

(** An HTTP layer whose listeners accept the bind and the close but never
    invoke a completion callback. *)
Definition SilentLayer : HttpLayer unit := {|
  app_listen app _ _ w := (Ok (HttpServerOf app, CbNotInvoked), w);
  server_close _ w := (CbNotInvoked, w)
|}.

(* ================================================================== *)
(** ** Reading properties *)
(* ================================================================== *)

Lemma getProp_defined (v : Value) (k : string) :
  nullish v = false -> getProp v k = Ok (field v k).
Proof.
  unfold field. destruct v; simpl; try discriminate; intros _; try reflexivity.
  destruct (lookup k props); reflexivity.
Qed.

Lemma getProp_nullish (v : Value) (k : string) :
  nullish v = true ->
  getProp v k = Throw (TypeError "Cannot read properties of undefined").
Proof. destruct v; simpl; try discriminate; reflexivity. Qed.

Lemma getProp_ok_defined (v : Value) (k : string) (x : Value) :
  getProp v k = Ok x -> nullish v = false.
Proof. destruct v; simpl; try discriminate; reflexivity. Qed.

Lemma getProp_ok_field (v : Value) (k : string) (x : Value) :
  getProp v k = Ok x -> field v k = x.
Proof. unfold field. intros ->. reflexivity. Qed.

(** Two reads of the same object either both throw or both return. *)
Lemma getProp_other (v : Value) (k k' : string) (x : Value) :
  getProp v k = Ok x -> getProp v k' = Ok (field v k').
Proof. intros Hx. apply getProp_defined. eapply getProp_ok_defined; eauto. Qed.

(** The two type guards of the options, as the matches [listen] and
    [close] make on the fields. *)
Lemma isHybrid_adapter o :
  isHybrid o = true <-> exists a, adapter o = Some a.
Proof.
  unfold isHybrid. destruct (adapter o) as [a|]; split.
  - intros _. exists a. reflexivity.
  - reflexivity.
  - discriminate.
  - intros [a Ha]. discriminate.
Qed.

Lemma isStandalone_port o :
  isStandalone o = true <-> exists p, port o = Some p.
Proof.
  unfold isStandalone. destruct (port o) as [p|]; split.
  - intros _. exists p. reflexivity.
  - reflexivity.
  - discriminate.
  - intros [p Hp]. discriminate.
Qed.




Lemma keep_defined_head f k x rest :
  keep_defined f ((k, x) :: rest) =
  if is_undefined x then keep_defined f rest else (k, f x) :: keep_defined f rest.
Proof. destruct x; reflexivity. Qed.

(** The error member of an error envelope, as JSON text carries it. *)
Lemma wire_error_member id c d m :
  field (wire (error_envelope id c d m)) "error" =
  Object (keep_defined wire [("code", c); ("data", d); ("message", m)]).
Proof. destruct id; reflexivity. Qed.


(* ================================================================== *)
(** ** The serializer, case by case *)
(* ================================================================== *)

Lemma serializeResponse_value (id v : Value) :
  serializeResponse id (Object [("value", v)]) = Ok (success_envelope id v).
Proof. reflexivity. Qed.

Lemma serializeResponse_error (id e : Value) :
  nullish e = false ->
  serializeResponse id (Object [("error", e)]) =
  Ok (error_envelope id (or_op (field e "code") (Number 500))
        (field e "data") (field e "message")).
Proof.
  intros He. unfold serializeResponse. simpl.
  rewrite !(getProp_defined e _ He). reflexivity.
Qed.

Lemma serializeResponse_error_nullish (id e : Value) :
  nullish e = true ->
  serializeResponse id (Object [("error", e)]) =
  Throw (TypeError "Cannot read properties of undefined").
Proof.
  intros He. unfold serializeResponse. simpl.
  rewrite (getProp_nullish e _ He). reflexivity.
Qed.

(** Whatever the response object, an envelope that comes back has one of
    the two shapes. *)
Lemma serializeResponse_shape (id response env : Value) :
  serializeResponse id response = Ok env ->
  (exists v, env = success_envelope id v) \/
  (exists c d m, env = error_envelope id c d m).
Proof.
  unfold serializeResponse.
  destruct (in_op "error" response) as [[|]|] eqn:Hin; simpl; try discriminate.
  - destruct (getProp response "error") as [e|]; simpl; try discriminate.
    destruct (getProp e "code") as [c|]; simpl; try discriminate.
    destruct (getProp e "data") as [d|]; simpl; try discriminate.
    destruct (getProp e "message") as [m|]; simpl; try discriminate.
    intros [= <-]. right. exists (or_op c (Number 500)), d, m. reflexivity.
  - destruct (getProp response "value") as [v|]; simpl; try discriminate.
    intros [= <-]. left. exists v. reflexivity.
Qed.

(* ================================================================== *)
(** ** The route, case by case *)
(* ================================================================== *)

(** Without a body object the first property read throws. *)
Lemma handle_body_nullish reg app rq :
  nullish (body rq) = true ->
  handle reg app rq =
  ([], Rejected (TypeError "Cannot read properties of undefined")).
Proof.
  intros Hb. unfold handle, route, bindA, eval.
  rewrite (getProp_nullish _ _ Hb). reflexivity.
Qed.

Lemma handle_not_found reg app rq m text :
  getProp (body rq) "method" = Ok m ->
  reg m = None ->
  ToString m = Ok text ->
  handle reg app rq =
  ([mkHttpResponse 200
      (error_envelope (field (body rq) "id") (Number 404) Undefined
         (String ("Method not found: " ++ text)))],
   Fulfilled tt).
Proof.
  intros Hm Hreg Ht. unfold handle, route, bindA, eval, send.
  rewrite Hm, Hreg, Ht.
  rewrite (getProp_other _ _ "id" _ Hm). reflexivity.
Qed.

(** A method that is not found and cannot be turned into text: the
    concatenation throws and the route rejects with nothing written. *)
Lemma handle_not_found_throws reg app rq m e :
  getProp (body rq) "method" = Ok m ->
  reg m = None ->
  ToString m = Throw e ->
  handle reg app rq = ([], Rejected e).
Proof.
  intros Hm Hreg Ht. unfold handle, route, bindA, eval, send.
  rewrite Hm, Hreg, Ht. reflexivity.
Qed.

Lemma handle_found reg app rq m h :
  getProp (body rq) "method" = Ok m ->
  reg m = Some h ->
  handle reg app rq =
  match h (field (body rq) "params") (mkJsonRpcContext rq (getHttpServer app)) with
  | Rejected e => ([], Rejected e)
  | Pending => ([], Pending)
  | Fulfilled returned =>
      match toPromise (transformToObservable returned) with
      | Pending => ([], Pending)
      | Fulfilled v =>
          ([mkHttpResponse 200 (success_envelope (field (body rq) "id") v)],
           Fulfilled tt)
      | Rejected e =>
          if nullish e
          then ([], Rejected (TypeError "Cannot read properties of undefined"))
          else ([mkHttpResponse 200
                   (error_envelope (field (body rq) "id")
                      (or_op (field e "code") (Number 500))
                      (field e "data") (field e "message"))],
                Fulfilled tt)
      end
  end.
Proof.
  intros Hm Hreg. unfold handle, route, bindA, eval, await, send.
  rewrite Hm, Hreg.
  rewrite (getProp_other _ _ "params" _ Hm).
  destruct (h _ _) as [returned| |]; try reflexivity.
  destruct (toPromise (transformToObservable returned)) as [v|e|]; simpl;
    try reflexivity.
  - rewrite (getProp_other _ _ "id" _ Hm). reflexivity.
  - rewrite (getProp_other _ _ "id" _ Hm).
    destruct (nullish e) eqn:He.
    + rewrite (serializeResponse_error_nullish _ _ He). reflexivity.
    + rewrite (serializeResponse_error _ _ He). reflexivity.
Qed.

(** Every response the route writes is an envelope for the request's id,
    sent with status 200, and there is at most one. *)
Lemma handle_sent reg app rq :
  fst (handle reg app rq) = [] \/
  exists env,
    fst (handle reg app rq) = [mkHttpResponse 200 env] /\
    ((exists v, env = success_envelope (field (body rq) "id") v) \/
     (exists c d m, env = error_envelope (field (body rq) "id") c d m)).
Proof.
  destruct (getProp (body rq) "method") as [m|e0] eqn:Hm.
  - destruct (reg m) as [h|] eqn:Hreg.
    + rewrite (handle_found _ _ _ _ _ Hm Hreg).
      destruct (h _ _) as [returned| |]; simpl; auto.
      destruct (toPromise _) as [v|e|]; simpl; auto.
      * right. eexists. split; [reflexivity|]. left. eauto.
      * destruct (nullish e); simpl; auto.
        right. eexists. split; [reflexivity|]. right. eauto.
    + destruct (ToString m) as [text|e] eqn:Ht.
      * rewrite (handle_not_found _ _ _ _ _ Hm Hreg Ht). simpl.
        right. eexists. split; [reflexivity|]. right. eauto.
      * rewrite (handle_not_found_throws _ _ _ _ _ Hm Hreg Ht). auto.
  - left. unfold handle, route, bindA, eval. rewrite Hm. reflexivity.
Qed.

(* ================================================================== *)
(** ** C1: failures at the dispatcher boundary *)
(* ================================================================== *)

(** C1, as stated, fails: the method resolves to a handler whose own
    promise rejects; the [await] on it is outside any capture, so the
    route's promise rejects with that error and no response is written. *)
Lemma rejected_invocation_escapes :
  test_registry (String "test.rejecting") = Some rejecting_handler /\
  handle test_registry nest_adapter (rpc_request "7" "test.rejecting" (Object [])) =
  ([], Rejected (TypeError "Accidental server error")).
Proof. split; reflexivity. Qed.

(** C1, amended: when the method resolves to a handler, a failure that
    arrives through the observable the invocation resolved to, with an
    error that is neither [null] nor [undefined], is captured: exactly one
    response is written, with status 200 and the error envelope built from
    that error, and the route's promise fulfils.  A rejection of the
    invocation itself is not captured: the route's promise rejects with it
    and nothing is written. *)
Theorem observable_failure_is_captured :
  forall reg app rq m h,
    getProp (body rq) "method" = Ok m ->
    reg m = Some h ->
    (forall returned e,
        h (field (body rq) "params") (mkJsonRpcContext rq (getHttpServer app))
          = Fulfilled returned ->
        toPromise (transformToObservable returned) = Rejected e ->
        nullish e = false ->
        handle reg app rq =
        ([mkHttpResponse 200
            (error_envelope (field (body rq) "id")
               (or_op (field e "code") (Number 500))
               (field e "data") (field e "message"))],
         Fulfilled tt)) /\
    (forall e,
        h (field (body rq) "params") (mkJsonRpcContext rq (getHttpServer app))
          = Rejected e ->
        handle reg app rq = ([], Rejected e)).
Proof.
  intros reg app rq m h Hm Hreg. split.
  - intros returned e Hh Hp He.
    rewrite (handle_found _ _ _ _ _ Hm Hreg), Hh, Hp, He. reflexivity.
  - intros e Hh.
    rewrite (handle_found _ _ _ _ _ Hm Hreg), Hh. reflexivity.
Qed.

Lemma observable_failure_is_captured_witness :
  handle test_registry nest_adapter
    (rpc_request "3" "test.testError" (Object [("errorTest", String "x")])) =
  ([mkHttpResponse 200
      (error_envelope (String "3") (Number 403)
         (Object [("fromService", String "Test Service");
                  ("params", Object [("errorTest", String "x")])])
         (String "RPC EXCEPTION"))],
   Fulfilled tt).
Proof.
  exact (proj1 (observable_failure_is_captured test_registry nest_adapter
                  (rpc_request "3" "test.testError"
                     (Object [("errorTest", String "x")]))
                  (String "test.testError") testError_handler
                  eq_refl eq_refl)
           _ _ eq_refl eq_refl eq_refl).
Defined.

(* ================================================================== *)
(** ** C3: method not found *)
(* ================================================================== *)

(** C3: when the requested method name is not in the registry, the route
    writes one envelope whose [error.code] is 404 and whose
    [error.message] is ["Method not found: "] followed by the method name;
    the envelope has an [error] field and no [result] field, also as JSON
    text. *)
Theorem method_not_found_envelope :
  forall reg app rq name,
    getProp (body rq) "method" = Ok (String name) ->
    reg (String name) = None ->
    exists env,
      handle reg app rq = ([mkHttpResponse 200 env], Fulfilled tt) /\
      field (field env "error") "code" = Number 404 /\
      field (field env "error") "message" =
        String ("Method not found: " ++ name) /\
      hasField "error" env = true /\
      hasField "result" env = false /\
      hasField "result" (wire env) = false.
Proof.
  intros reg app rq name Hm Hreg.
  eexists. split; [apply (handle_not_found _ _ _ _ name Hm Hreg eq_refl)|].
  repeat split; try reflexivity.
  destruct (field (body rq) "id"); reflexivity.
Qed.

Lemma method_not_found_envelope_witness :
  exists env,
    handle test_registry nest_adapter (rpc_request "2" "missing" (Object [])) =
      ([mkHttpResponse 200 env], Fulfilled tt) /\
    field (field env "error") "code" = Number 404 /\
    field (field env "error") "message" = String "Method not found: missing" /\
    hasField "error" env = true /\
    hasField "result" env = false /\
    hasField "result" (wire env) = false.
Proof.
  exact (method_not_found_envelope test_registry nest_adapter
           (rpc_request "2" "missing" (Object [])) "missing"
           eq_refl eq_refl).
Defined.

(** The scenario of the spec: the JSON text for a missing method carries
    [jsonrpc], [id] and [error] with [code] and [message] only. *)
Example missing_method_on_the_wire :
  map (fun r => wire (payload r))
      (fst (handle test_registry nest_adapter
              (rpc_request "2" "missing" (Object [])))) =
  [Object [("jsonrpc", String "2.0"); ("id", String "2");
           ("error", Object [("code", Number 404);
                             ("message", String "Method not found: missing")])]].
Proof. reflexivity. Qed.

(** A method that is not a string is turned into text by the
    concatenation: a number prints as JavaScript prints it. *)
Example numeric_method_not_found :
  handle test_registry nest_adapter
    (mkRequest (Object [("id", String "8"); ("method", Number (10 ^ 21))])
       no_headers) =
  ([mkHttpResponse 200
      (error_envelope (String "8") (Number 404) Undefined
         (String "Method not found: 1e+21"))],
   Fulfilled tt).
Proof. vm_compute. reflexivity. Qed.

(** A method that is an object with an own [toString] member has no text:
    the concatenation throws, nothing is written and the route rejects. *)
Example method_without_text :
  handle test_registry nest_adapter
    (mkRequest (Object [("id", String "8");
                        ("method", Object [("toString", Number 1)])])
       no_headers) =
  ([], Rejected (TypeError "Cannot convert object to primitive value")).
Proof. reflexivity. Qed.

(* ================================================================== *)
(** ** C4, C5: how a failure is normalised *)
(* ================================================================== *)

(** C4, as stated, fails: a structured error that carries the code 0 (with
    a message and data) comes out with [error.code] 500, not 0. *)
Lemma zero_code_is_replaced :
  field (CodedRpcException "RPC EXCEPTION" 0
           (Some (Object [("fromService", String "Test Service")]))) "code"
    = Number 0 /\
  serializeResponse (String "1")
    (Object [("error",
              CodedRpcException "RPC EXCEPTION" 0
                (Some (Object [("fromService", String "Test Service")])))]) =
  Ok (error_envelope (String "1") (Number 500)
        (Object [("fromService", String "Test Service")])
        (String "RPC EXCEPTION")).
Proof. split; reflexivity. Qed.

(** C4, amended: for a failure that carries a truthy (for a number:
    nonzero) code [C], data [D] and a message [M], the serializer returns
    the error envelope with [error.code = C], [error.data = D] and
    [error.message = M]; and a handler whose observable errors with such a
    failure gets exactly that envelope written. *)
Theorem structured_error_fields_kept :
  forall id e C D M,
    getProp e "code" = Ok C ->
    getProp e "data" = Ok D ->
    getProp e "message" = Ok M ->
    truthy C = true ->
    serializeResponse id (Object [("error", e)]) = Ok (error_envelope id C D M) /\
    (forall reg app rq m h returned,
        getProp (body rq) "method" = Ok m ->
        reg m = Some h ->
        h (field (body rq) "params") (mkJsonRpcContext rq (getHttpServer app))
          = Fulfilled returned ->
        toPromise (transformToObservable returned) = Rejected e ->
        handle reg app rq =
        ([mkHttpResponse 200 (error_envelope (field (body rq) "id") C D M)],
         Fulfilled tt)).
Proof.
  intros id e C D M HC HD HM Ht.
  pose proof (getProp_ok_defined _ _ _ HC) as He.
  apply getProp_ok_field in HC, HD, HM.
  assert (Hor : or_op (field e "code") (Number 500) = C)
    by (rewrite HC; unfold or_op; rewrite Ht; reflexivity).
  split.
  - rewrite (serializeResponse_error _ _ He), Hor, HD, HM. reflexivity.
  - intros reg app rq m h returned Hm Hreg Hh Hp.
    rewrite (handle_found _ _ _ _ _ Hm Hreg), Hh, Hp, He, Hor, HD, HM.
    reflexivity.
Qed.

Lemma structured_error_fields_kept_witness :
  serializeResponse (String "3")
    (Object [("error",
              CodedRpcException "RPC EXCEPTION" 403
                (Some (Object [("fromService", String "Test Service")])))]) =
  Ok (error_envelope (String "3") (Number 403)
        (Object [("fromService", String "Test Service")])
        (String "RPC EXCEPTION")).
Proof.
  exact (proj1 (structured_error_fields_kept (String "3")
                  (CodedRpcException "RPC EXCEPTION" 403
                     (Some (Object [("fromService", String "Test Service")])))
                  (Number 403)
                  (Object [("fromService", String "Test Service")])
                  (String "RPC EXCEPTION")
                  eq_refl eq_refl eq_refl eq_refl)).
Defined.

(** C5, as stated, fails twice over.  A failure whose code is falsy but
    which carries data keeps its data in the envelope; and a failure that
    is a bare string, whose description is that string, gets no message at
    all. *)
Lemma falsy_code_keeps_data_and_message_is_a_property :
  truthy (Number 0) = false /\
  serializeResponse (String "1")
    (Object [("error", Object [("code", Number 0);
                               ("message", String "bad input");
                               ("data", Object [("detail", String "x")])])]) =
  Ok (error_envelope (String "1") (Number 500)
        (Object [("detail", String "x")]) (String "bad input")) /\
  hasField "data"
    (field (wire (error_envelope (String "1") (Number 500)
                    (Object [("detail", String "x")]) (String "bad input")))
       "error") = true /\
  ToString (String "boom") = Ok "boom" /\
  serializeResponse (String "1") (Object [("error", String "boom")]) =
  Ok (error_envelope (String "1") (Number 500) Undefined Undefined).
Proof. repeat split; reflexivity. Qed.

(** C5, amended: for a failure (not [null] or [undefined]) whose code is
    absent or falsy, the envelope has [error.code = 500], [error.message]
    is the failure's own [message] property and [error.data] its own
    [data] property; the error object in the JSON text has a [data] member
    exactly when the failure carries data, that is, none exactly when its
    [data] is [undefined]. *)
Theorem unstructured_failure_gets_500 :
  forall id e,
    nullish e = false ->
    truthy (field e "code") = false ->
    serializeResponse id (Object [("error", e)]) =
      Ok (error_envelope id (Number 500) (field e "data") (field e "message")) /\
    hasField "data"
      (field (wire (error_envelope id (Number 500) (field e "data")
                      (field e "message"))) "error") =
      negb (is_undefined (field e "data")).
Proof.
  intros id e He Hc. split.
  - rewrite (serializeResponse_error _ _ He). unfold or_op. rewrite Hc.
    reflexivity.
  - rewrite wire_error_member, !keep_defined_head. cbn [is_undefined].
    destruct (is_undefined (field e "data"));
      destruct (is_undefined (field e "message")); reflexivity.
Qed.

Lemma unstructured_failure_gets_500_witness :
  serializeResponse (String "4")
    (Object [("error", Object [("message", String "Accidental server error")])]) =
    Ok (error_envelope (String "4") (Number 500) Undefined
          (String "Accidental server error")) /\
  hasField "data"
    (field (wire (error_envelope (String "4") (Number 500) Undefined
                    (String "Accidental server error"))) "error") = false.
Proof.
  exact (unstructured_failure_gets_500 (String "4")
           (Object [("message", String "Accidental server error")])
           eq_refl eq_refl).
Defined.

(* ================================================================== *)
(** ** C6: exactly one of result and error *)
(* ================================================================== *)

(** C6, as stated, fails: a success whose value is [undefined] (a handler
    with nothing to return) gets the envelope [{jsonrpc, id, result:
    undefined}], and the JSON text written for it has neither a [result]
    nor an [error] member. *)
Lemma undefined_result_is_not_written :
  handle test_registry nest_adapter (rpc_request "5" "test.void" (Object [])) =
    ([mkHttpResponse 200 (success_envelope (String "5") Undefined)], Fulfilled tt) /\
  serializeResponse (String "5") (Object [("value", Undefined)]) =
    Ok (success_envelope (String "5") Undefined) /\
  wire (success_envelope (String "5") Undefined) =
    Object [("jsonrpc", String "2.0"); ("id", String "5")] /\
  hasField "result" (wire (success_envelope (String "5") Undefined)) = false /\
  hasField "error" (wire (success_envelope (String "5") Undefined)) = false.
Proof. repeat split; reflexivity. Qed.

(** C6, amended: every envelope the serializer returns has exactly one of
    [result] and [error] as a property, and the JSON text written for it
    never has both.  The text of an error envelope has the [error] member
    and no [result]; the text of a success envelope has the [result]
    member and no [error], except when the success value is [undefined]:
    then it has neither. *)
Theorem exactly_one_of_result_and_error :
  (forall id response env,
      serializeResponse id response = Ok env ->
      xorb (hasField "result" env) (hasField "error" env) = true /\
      (hasField "result" (wire env) && hasField "error" (wire env)) = false /\
      hasField "error" (wire env) = hasField "error" env /\
      hasField "result" (wire env) =
        (hasField "result" env && negb (is_undefined (field env "result")))) /\
  (forall id v,
      exists env,
        serializeResponse id (Object [("value", v)]) = Ok env /\
        hasField "result" env = true /\ hasField "error" env = false /\
        hasField "result" (wire env) = negb (is_undefined v) /\
        hasField "error" (wire env) = false) /\
  (forall id e,
      nullish e = false ->
      exists env,
        serializeResponse id (Object [("error", e)]) = Ok env /\
        hasField "error" env = true /\ hasField "result" env = false /\
        hasField "error" (wire env) = true /\
        hasField "result" (wire env) = false).
Proof.
  split; [|split].
  - intros id response env Hs.
    destruct (serializeResponse_shape _ _ _ Hs) as [[v ->]|[c [d [m ->]]]].
    + repeat split; try reflexivity; destruct id; destruct v; reflexivity.
    + repeat split; try reflexivity; destruct id; reflexivity.
  - intros id v. eexists. split; [apply serializeResponse_value|].
    repeat split; try reflexivity; destruct id; destruct v; reflexivity.
  - intros id e He. eexists. split; [apply (serializeResponse_error _ _ He)|].
    repeat split; try reflexivity; destruct id; reflexivity.
Qed.

Lemma exactly_one_of_result_and_error_witness :
  xorb (hasField "result" (success_envelope (String "1") Undefined))
       (hasField "error" (success_envelope (String "1") Undefined)) = true /\
  (hasField "result" (wire (success_envelope (String "1") Undefined)) &&
   hasField "error" (wire (success_envelope (String "1") Undefined))) = false /\
  hasField "error" (wire (success_envelope (String "1") Undefined)) =
    hasField "error" (success_envelope (String "1") Undefined) /\
  hasField "result" (wire (success_envelope (String "1") Undefined)) =
    (hasField "result" (success_envelope (String "1") Undefined) &&
     negb (is_undefined (field (success_envelope (String "1") Undefined) "result"))).
Proof.
  exact (proj1 exactly_one_of_result_and_error (String "1")
           (Object [("value", Undefined)])
           (success_envelope (String "1") Undefined) eq_refl).
Defined.

(* ================================================================== *)
(** ** C7, C8: the id and the HTTP status of what is written *)
(* ================================================================== *)



(** C8: every response the route writes, success or error, has HTTP
    status 200. *)
Theorem responses_have_status_200 :
  forall reg app rq r,
    In r (fst (handle reg app rq)) -> status r = 200.
Proof.
  intros reg app rq r Hin.
  destruct (handle_sent reg app rq) as [Hnil|[env [Hsent _]]].
  - rewrite Hnil in Hin. destruct Hin.
  - rewrite Hsent in Hin. destruct Hin as [<-|[]]. reflexivity.
Qed.

Lemma responses_have_status_200_witness :
  status (mkHttpResponse 200
            (error_envelope (String "2") (Number 404) Undefined
               (String "Method not found: missing"))) = 200.
Proof.
  exact (responses_have_status_200 test_registry nest_adapter
           (rpc_request "2" "missing" (Object [])) _ (or_introl eq_refl)).
Defined.

(** The scenarios of the spec for a success and for a structured error. *)
Example echo_scenario :
  handle test_registry nest_adapter
    (rpc_request "1" "test.invoke" (Object [("test", String "x")])) =
  ([mkHttpResponse 200
      (Object [("jsonrpc", String "2.0"); ("id", String "1");
               ("result", Object [("test", String "x")])])],
   Fulfilled tt).
Proof. reflexivity. Qed.

Example context_scenario :
  handle test_registry nest_adapter
    (mkRequest (Object [("id", String "9"); ("method", String "test.injectContext")])
       (fun k => if String.eqb k "Authorization" then Some "Bearer t" else None)) =
  ([mkHttpResponse 200
      (success_envelope (String "9") (Object [("key", String "Bearer t")]))],
   Fulfilled tt).
Proof. reflexivity. Qed.

(** An observable that errors with [null] makes the serializer throw: the
    route's promise rejects and nothing is written. *)
Example null_error_scenario :
  handle test_registry nest_adapter (rpc_request "6" "test.nullError" (Object [])) =
  ([], Rejected (TypeError "Cannot read properties of undefined")).
Proof. reflexivity. Qed.

(* ================================================================== *)
(** ** C2, C9, C10: the lifecycle *)
(* ================================================================== *)

Section LifecycleFacts.
Context {W : Type} `{HttpLayer W}.

(** Without a port, [close()] does nothing and completes. *)
Lemma close_without_port this (w : W) :
  port (options this) = None ->
  close this w = mkRun this w [] (Fulfilled tt).
Proof. intros Hp. unfold close. rewrite Hp. reflexivity. Qed.

(** With a port and no listener, the function handed to [invokeAsync]
    returns without invoking the callback. *)
Lemma close_without_listener this (w : W) p :
  port (options this) = Some p ->
  server this = None ->
  close this w = mkRun this w [] Pending.
Proof. intros Hp Hs. unfold close. rewrite Hp, Hs. reflexivity. Qed.

(** With a port and a listener, [close()] asks the listener to close and
    completes when the listener invokes the callback. *)
Lemma close_with_listener this (w : W) p srv :
  port (options this) = Some p ->
  server this = Some srv ->
  close this w =
  mkRun this (snd (server_close srv w)) [EServerClose srv]
    (invokeAsync (fst (server_close srv w))).
Proof.
  intros Hp Hs. unfold close. rewrite Hp, Hs.
  destruct (server_close srv w). reflexivity.
Qed.

(** In hybrid mode (an adapter and no port) any number of [close()]
    calls complete. *)
Lemma close_times_without_port this (w : W) n :
  port (options this) = None ->
  close_times n this w = repeat (Fulfilled tt) n.
Proof.
  intros Hp. induction n as [|n IH]; simpl; [reflexivity|].
  rewrite (close_without_port _ _ Hp). simpl. rewrite IH. reflexivity.
Qed.

Lemma close_times_without_listener this (w : W) p n :
  port (options this) = Some p ->
  server this = None ->
  close_times n this w = repeat Pending n.
Proof.
  intros Hp Hs. induction n as [|n IH]; simpl; [reflexivity|].
  rewrite (close_without_listener _ _ _ Hp Hs). simpl. rewrite IH.
  reflexivity.
Qed.

End LifecycleFacts.

(** C2: on a standalone server that never listened, [close()] finds the
    [server] field [null], so the completion callback is never invoked and
    the promise [close()] awaits stays pending: the call does not
    complete. *)
Theorem close_before_listen_stays_pending :
  forall (W : Type) (L : HttpLayer W) (w : W) reg,
    close (new_JsonRpcServer standalone_options reg) w =
    mkRun (new_JsonRpcServer standalone_options reg) w [] Pending.
Proof. intros. apply (close_without_listener _ _ 8080); reflexivity. Qed.

(** C9: on a standalone server that never listened, a second [close()]
    stays pending like the first. *)
Theorem repeated_close_before_listen_stays_pending :
  forall (W : Type) (L : HttpLayer W) (w : W) reg,
    close_times 2 (new_JsonRpcServer standalone_options reg) w =
    [Pending; Pending].
Proof.
  intros. apply (close_times_without_listener _ _ 8080 2); reflexivity.
Qed.

(** After a successful [listen()], and over a layer that invokes every
    callback, two [close()] calls complete; [close()] leaves the [server]
    field set, so the second call closes the same listener again. *)
Example listen_then_close_twice :
  let started := listen (new_JsonRpcServer standalone_options test_registry) [] in
  settled started = Fulfilled tt /\
  trace started =
    [ENewExpressAdapter; EInitHttpServer OwnExpressAdapter;
     EPost OwnExpressAdapter "/rpc"; EListen OwnExpressAdapter 8080 None;
     ECallback] /\
  close_times 2 (this_after started) (layer_after started) =
    [Fulfilled tt; Fulfilled tt] /\
  trace (close (this_after (close (this_after started) (layer_after started)))
           (layer_after (close (this_after started) (layer_after started)))) =
    [EServerClose (HttpServerOf OwnExpressAdapter)].
Proof. repeat split; reflexivity. Qed.

(** In hybrid mode [listen()] mounts the route on the adapter of the host
    and binds nothing. *)
Example hybrid_listen :
  listen (new_JsonRpcServer hybrid_options test_registry) [] =
  mkRun (new_JsonRpcServer hybrid_options test_registry) []
    [EPost nest_adapter "/rpc"; ECallback] (Fulfilled tt).
Proof. reflexivity. Qed.

(** C10, as stated, fails: with both an adapter and a port, [listen()]
    calls [listen] on the supplied adapter with the port and stores the
    listener it gets back in the [server] field. *)
Lemma adapter_and_port_binds_the_adapter :
  isHybrid both_options = true /\
  isStandalone both_options = true /\
  listen (new_JsonRpcServer both_options test_registry) [] =
  mkRun (mkJsonRpcServer both_options (Some (HttpServerOf nest_adapter))
           test_registry)
    [HttpServerOf nest_adapter]
    [EPost nest_adapter "/rpc"; EListen nest_adapter 8080 None; ECallback]
    (Fulfilled tt).
Proof. repeat split; reflexivity. Qed.

(** C10, amended: with both an adapter and a port, the route is mounted on
    the supplied adapter and no adapter is created; the standalone check
    on the port succeeds as well, so [listen()] calls the supplied
    adapter's [listen] with the port (and the hostname, if any).  When that
    call returns, what it returns is stored in the [server] field and
    [listen()] completes when the call invokes the callback; when it
    throws, the field is left as it was, the callback is not called and
    [listen()] rejects with what was thrown. *)
Theorem adapter_and_port_listen :
  forall (W : Type) (L : HttpLayer W) (w : W) this a p,
    adapter (options this) = Some a ->
    port (options this) = Some p ->
    let o := options this in
    let r := listen this w in
    ~ In ENewExpressAdapter (trace r) /\
    match app_listen a p (hostname o) w with
    | (Ok (srv, reply), w') =>
        trace r =
          ([EPost a (path o); EListen a p (hostname o)] ++
           match reply with
           | CbInvoked => [ECallback]
           | CbNotInvoked => []
           end)%list /\
        server (this_after r) = Some srv /\
        layer_after r = w' /\
        settled r = invokeAsync reply
    | (Throw e, w') =>
        trace r = [EPost a (path o); EListen a p (hostname o)] /\
        this_after r = this /\
        layer_after r = w' /\
        settled r = Rejected e
    end.
Proof.
  intros W L w this a p Ha Hp o r. subst r o. unfold listen. rewrite Ha, Hp.
  destruct (hostname (options this)) as [h|];
    destruct (app_listen a p _ w) as [[[srv [|]]|e] w']; cbn;
    (split; [intros Hin; repeat (destruct Hin as [Hin|Hin]; [discriminate|]);
             exact Hin
            |repeat split; reflexivity]).
Qed.

Lemma adapter_and_port_listen_witness :
  let r := listen (new_JsonRpcServer both_options test_registry) [] in
  ~ In ENewExpressAdapter (trace r) /\
  trace r =
    [EPost nest_adapter "/rpc"; EListen nest_adapter 8080 None; ECallback] /\
  server (this_after r) = Some (HttpServerOf nest_adapter) /\
  layer_after r = [HttpServerOf nest_adapter] /\
  settled r = Fulfilled tt.
Proof.
  exact (adapter_and_port_listen (list HttpServer) ListLayer []
           (new_JsonRpcServer both_options test_registry) nest_adapter 8080
           eq_refl eq_refl).
Defined.

(** A bind that throws: with the port 65536 the layer throws a RangeError,
    so [listen()] rejects, the callback is not called and the [server]
    field stays [null]. *)
Example listen_on_a_bad_port :
  listen (new_JsonRpcServer bad_port_options test_registry) [] =
  mkRun (new_JsonRpcServer bad_port_options test_registry) []
    [ENewExpressAdapter; EInitHttpServer OwnExpressAdapter;
     EPost OwnExpressAdapter "/rpc"; EListen OwnExpressAdapter 65536 None]
    (Rejected (RangeError "Port should be >= 0 and < 65536")).
Proof. reflexivity. Qed.

(* ================================================================== *)
(** ** More on the serializer *)
(* ================================================================== *)

Lemma lookup_three k k1 v1 k2 v2 k3 v3 x :
  lookup k [(k1, v1); (k2, v2); (k3, v3)] = Some x ->
  k = k1 \/ k = k2 \/ k = k3.
Proof.
  simpl.
  destruct (String.eqb k k1) eqn:E1; [apply String.eqb_eq in E1; auto|].
  destruct (String.eqb k k2) eqn:E2; [apply String.eqb_eq in E2; auto|].
  destruct (String.eqb k k3) eqn:E3; [apply String.eqb_eq in E3; auto|].
  discriminate.
Qed.

Lemma truthy_or_500 c : truthy (or_op c (Number 500)) = true.
Proof. unfold or_op. destruct (truthy c) eqn:Hc; [exact Hc | reflexivity]. Qed.

Lemma truthy_defined v : truthy v = true -> is_undefined v = false.
Proof. destruct v; simpl; try reflexivity. discriminate. Qed.

(** The envelope the serializer builds from the properties it read. *)
Lemma serializeResponse_cases (id response env : Value) :
  serializeResponse id response = Ok env ->
  (exists v, getProp response "value" = Ok v /\
             in_op "error" response = Ok false /\
             env = success_envelope id v) \/
  (exists e, getProp response "error" = Ok e /\
             in_op "error" response = Ok true /\
             nullish e = false /\
             env = error_envelope id (or_op (field e "code") (Number 500))
                     (field e "data") (field e "message")).
Proof.
  unfold serializeResponse.
  destruct (in_op "error" response) as [[|]|] eqn:Hin; simpl; try discriminate.
  - destruct (getProp response "error") as [e|] eqn:He; simpl; try discriminate.
    destruct (nullish e) eqn:Hn.
    + rewrite (getProp_nullish e _ Hn). discriminate.
    + rewrite !(getProp_defined e _ Hn). simpl. intros [= <-].
      right. exists e. auto.
  - destruct (getProp response "value") as [v|] eqn:Hv; simpl; try discriminate.
    intros [= <-]. left. exists v. auto.
Qed.

(** An envelope has three members and no other: [jsonrpc] with the value
    ["2.0"], [id] with the id handed in, and then [result] or [error]. *)
Theorem envelope_members :
  forall id response env,
    serializeResponse id response = Ok env ->
    exists props,
      env = Object props /\
      lookup "jsonrpc" props = Some (String "2.0") /\
      lookup "id" props = Some id /\
      (map fst props = ["jsonrpc"; "id"; "result"] \/
       map fst props = ["jsonrpc"; "id"; "error"]).
Proof.
  intros id response env Hs.
  destruct (serializeResponse_shape _ _ _ Hs) as [[v ->]|[c [d [m ->]]]];
    eexists; (split; [reflexivity|]); simpl; auto.
Qed.

Lemma envelope_members_witness :
  exists props,
    success_envelope (Number 7) Null = Object props /\
    lookup "jsonrpc" props = Some (String "2.0") /\
    lookup "id" props = Some (Number 7) /\
    (map fst props = ["jsonrpc"; "id"; "result"] \/
     map fst props = ["jsonrpc"; "id"; "error"]).
Proof.
  exact (envelope_members (Number 7) (Object [("value", Null)])
           (success_envelope (Number 7) Null) eq_refl).
Defined.

(** A response object that has an [error] property is serialized as an
    error, whatever else it carries: a [value] next to it is ignored. *)
Theorem error_takes_precedence :
  forall id props e,
    lookup "error" props = Some e ->
    nullish e = false ->
    serializeResponse id (Object props) =
    Ok (error_envelope id (or_op (field e "code") (Number 500))
          (field e "data") (field e "message")).
Proof.
  intros id props e Hl He. unfold serializeResponse. simpl. rewrite Hl. simpl.
  rewrite !(getProp_defined e _ He). reflexivity.
Qed.

Lemma error_takes_precedence_witness :
  serializeResponse (String "1")
    (Object [("value", Number 42);
             ("error", Object [("code", Number 7); ("message", String "no")])]) =
  Ok (error_envelope (String "1") (Number 7) Undefined (String "no")).
Proof.
  exact (error_takes_precedence (String "1")
           [("value", Number 42);
            ("error", Object [("code", Number 7); ("message", String "no")])]
           (Object [("code", Number 7); ("message", String "no")])
           eq_refl eq_refl).
Defined.

(** A response object whose [error] property is [null] or [undefined]
    makes the serializer throw, and so does the route when an observable
    errors with such a value: nothing is written and the route's promise
    rejects. *)
Theorem null_error_throws :
  forall id props e,
    lookup "error" props = Some e ->
    nullish e = true ->
    serializeResponse id (Object props) =
      Throw (TypeError "Cannot read properties of undefined") /\
    (forall reg app rq m h returned,
        getProp (body rq) "method" = Ok m ->
        reg m = Some h ->
        h (field (body rq) "params") (mkJsonRpcContext rq (getHttpServer app))
          = Fulfilled returned ->
        toPromise (transformToObservable returned) = Rejected e ->
        handle reg app rq =
        ([], Rejected (TypeError "Cannot read properties of undefined"))).
Proof.
  intros id props e Hl He. split.
  - unfold serializeResponse. simpl. rewrite Hl. simpl.
    rewrite (getProp_nullish e _ He). reflexivity.
  - intros reg app rq m h returned Hm Hreg Hh Hp.
    rewrite (handle_found _ _ _ _ _ Hm Hreg), Hh, Hp, He. reflexivity.
Qed.

Lemma null_error_throws_witness :
  serializeResponse (String "1") (Object [("error", Undefined)]) =
  Throw (TypeError "Cannot read properties of undefined").
Proof.
  exact (proj1 (null_error_throws (String "1") [("error", Undefined)] Undefined
                  eq_refl eq_refl)).
Defined.

(** The code of an error envelope is never falsy: it is the failure's own
    code when that is truthy and 500 otherwise, so never 0, never absent. *)
Theorem error_code_is_truthy :
  forall id response env,
    serializeResponse id response = Ok env ->
    hasField "error" env = true ->
    truthy (field (field env "error") "code") = true /\
    hasField "code" (field (wire env) "error") = true.
Proof.
  intros id response env Hs Herr.
  destruct (serializeResponse_cases _ _ _ Hs)
    as [[v [_ [_ ->]]]|[e [_ [_ [_ ->]]]]]; [discriminate|].
  pose proof (truthy_or_500 (field e "code")) as Ht.
  split; [exact Ht|].
  rewrite wire_error_member, keep_defined_head, (truthy_defined _ Ht).
  reflexivity.
Qed.

Lemma error_code_is_truthy_witness :
  truthy (field (field (error_envelope (String "1") (Number 500) Undefined
                          Undefined) "error") "code") = true /\
  hasField "code"
    (field (wire (error_envelope (String "1") (Number 500) Undefined Undefined))
       "error") = true.
Proof.
  exact (error_code_is_truthy (String "1") (Object [("error", String "boom")])
           (error_envelope (String "1") (Number 500) Undefined Undefined)
           eq_refl eq_refl).
Defined.

(** Nothing of a failure but its code, data and message reaches the
    envelope: the error object has these three members and no other (no
    stack, no name). *)
Theorem error_has_only_code_data_message :
  forall id response env,
    serializeResponse id response = Ok env ->
    hasField "error" env = true ->
    (exists c d m,
        field env "error" = Object [("code", c); ("data", d); ("message", m)]) /\
    (forall k,
        hasField k (field env "error") = true ->
        k = "code" \/ k = "data" \/ k = "message").
Proof.
  intros id response env Hs Herr.
  destruct (serializeResponse_shape _ _ _ Hs) as [[v ->]|[c [d [m ->]]]];
    [discriminate|].
  change (field (error_envelope id c d m) "error")
    with (Object [("code", c); ("data", d); ("message", m)]).
  split; [exists c, d, m; reflexivity|].
  intros k Hk. unfold hasField in Hk.
  destruct (lookup k [("code", c); ("data", d); ("message", m)]) as [x|] eqn:Hl;
    [|discriminate].
  exact (lookup_three _ _ _ _ _ _ _ _ Hl).
Qed.

Lemma error_has_only_code_data_message_witness :
  (exists c d m,
      field (error_envelope (String "1") (Number 500) Undefined
               (String "Accidental server error")) "error" =
      Object [("code", c); ("data", d); ("message", m)]) /\
  (forall k,
      hasField k (field (error_envelope (String "1") (Number 500) Undefined
                           (String "Accidental server error")) "error") = true ->
      k = "code" \/ k = "data" \/ k = "message").
Proof.
  exact (error_has_only_code_data_message (String "1")
           (Object [("error", TypeError "Accidental server error")])
           (error_envelope (String "1") (Number 500) Undefined
              (String "Accidental server error"))
           eq_refl eq_refl).
Defined.

(** In the JSON text of an error envelope the [data] member is there
    exactly when the failure's data is not [undefined], and likewise the
    [message] member. *)
Theorem error_members_on_the_wire :
  forall id e,
    nullish e = false ->
    exists env,
      serializeResponse id (Object [("error", e)]) = Ok env /\
      hasField "data" (field (wire env) "error") =
        negb (is_undefined (field e "data")) /\
      hasField "message" (field (wire env) "error") =
        negb (is_undefined (field e "message")).
Proof.
  intros id e He. eexists. split; [apply (serializeResponse_error _ _ He)|].
  rewrite wire_error_member, !keep_defined_head.
  rewrite (truthy_defined _ (truthy_or_500 (field e "code"))).
  destruct (is_undefined (field e "data"));
    destruct (is_undefined (field e "message")); split; reflexivity.
Qed.

Lemma error_members_on_the_wire_witness :
  exists env,
    serializeResponse (String "1")
      (Object [("error", Object [("code", Number 403); ("data", Null)])]) = Ok env /\
    hasField "data" (field (wire env) "error") = true /\
    hasField "message" (field (wire env) "error") = false.
Proof.
  exact (error_members_on_the_wire (String "1")
           (Object [("code", Number 403); ("data", Null)]) eq_refl).
Defined.



(* ================================================================== *)
(** ** More on the route *)
(* ================================================================== *)

(** The three ways a request ends. *)
Lemma handle_outcome reg app rq :
  (exists e, handle reg app rq = ([], Rejected e)) \/
  handle reg app rq = ([], Pending) \/
  (exists env, handle reg app rq = ([mkHttpResponse 200 env], Fulfilled tt)).
Proof.
  destruct (getProp (body rq) "method") as [m|e0] eqn:Hm.
  - destruct (reg m) as [h|] eqn:Hreg.
    + rewrite (handle_found _ _ _ _ _ Hm Hreg).
      destruct (h _ _) as [returned|e|]; eauto.
      destruct (toPromise _) as [v|e|]; eauto.
      destruct (nullish e); eauto.
    + destruct (ToString m) as [text|e] eqn:Ht.
      * rewrite (handle_not_found _ _ _ _ _ Hm Hreg Ht). eauto.
      * rewrite (handle_not_found_throws _ _ _ _ _ Hm Hreg Ht). eauto.
  - left. exists e0. unfold handle, route, bindA, eval. rewrite Hm. reflexivity.
Qed.

(** A request gets at most one response, and it gets one exactly when the
    route's promise fulfils: a route that rejects or stays pending has
    written nothing. *)
Theorem one_response_iff_fulfilled :
  forall reg app rq,
    (List.length (fst (handle reg app rq)) <= 1)%nat /\
    (snd (handle reg app rq) = Fulfilled tt <->
     List.length (fst (handle reg app rq)) = 1%nat).
Proof.
  intros reg app rq.
  destruct (handle_outcome reg app rq) as [[e ->]|[->|[env ->]]]; simpl;
    (split; [lia|]); split; intros Hx; try discriminate; reflexivity.
Qed.

(** There is no deadline in the route: when the handler's promise never
    settles, or the observable it gave never ends, no response is ever
    written. *)
Theorem unsettled_handler_is_never_answered :
  forall reg app rq m h,
    getProp (body rq) "method" = Ok m ->
    reg m = Some h ->
    (h (field (body rq) "params") (mkJsonRpcContext rq (getHttpServer app))
       = Pending ->
     handle reg app rq = ([], Pending)) /\
    (forall returned,
        h (field (body rq) "params") (mkJsonRpcContext rq (getHttpServer app))
          = Fulfilled returned ->
        terminal (transformToObservable returned) = NeverEnds ->
        handle reg app rq = ([], Pending)).
Proof.
  intros reg app rq m h Hm Hreg. split.
  - intros Hh. rewrite (handle_found _ _ _ _ _ Hm Hreg), Hh. reflexivity.
  - intros returned Hh Ht.
    rewrite (handle_found _ _ _ _ _ Hm Hreg), Hh. unfold toPromise.
    rewrite Ht. reflexivity.
Qed.

Lemma unsettled_handler_is_never_answered_witness :
  handle (fun _ => Some (fun _ _ => Fulfilled (Stream (mkObservable [Number 1] NeverEnds))))
    nest_adapter (rpc_request "1" "tick" (Object [])) = ([], Pending).
Proof.
  exact (proj2 (unsettled_handler_is_never_answered
                  (fun _ => Some (fun _ _ =>
                     Fulfilled (Stream (mkObservable [Number 1] NeverEnds))))
                  nest_adapter (rpc_request "1" "tick" (Object []))
                  (String "tick") _ eq_refl eq_refl)
           _ eq_refl eq_refl).
Defined.

(** The result of a call: a plain value the handler resolved to is the
    result as it is; of an observable that completes, the result is the
    last value it emitted, and [undefined] when it emitted none. *)
Theorem result_is_the_last_value :
  forall reg app rq m h,
    getProp (body rq) "method" = Ok m ->
    reg m = Some h ->
    (forall v,
        h (field (body rq) "params") (mkJsonRpcContext rq (getHttpServer app))
          = Fulfilled (Plain v) ->
        handle reg app rq =
        ([mkHttpResponse 200 (success_envelope (field (body rq) "id") v)],
         Fulfilled tt)) /\
    (forall o,
        h (field (body rq) "params") (mkJsonRpcContext rq (getHttpServer app))
          = Fulfilled (Stream o) ->
        terminal o = Completes ->
        handle reg app rq =
        ([mkHttpResponse 200
            (success_envelope (field (body rq) "id") (last (emits o) Undefined))],
         Fulfilled tt)).
Proof.
  intros reg app rq m h Hm Hreg. split.
  - intros v Hh. rewrite (handle_found _ _ _ _ _ Hm Hreg), Hh. reflexivity.
  - intros o Hh Ht. rewrite (handle_found _ _ _ _ _ Hm Hreg), Hh.
    unfold toPromise. simpl. rewrite Ht. reflexivity.
Qed.

Lemma result_is_the_last_value_witness :
  handle (fun _ => Some (fun _ _ =>
            Fulfilled (Stream (mkObservable [Number 1; Number 2] Completes))))
    nest_adapter (rpc_request "1" "count" (Object [])) =
  ([mkHttpResponse 200 (success_envelope (String "1") (Number 2))], Fulfilled tt).
Proof.
  exact (proj2 (result_is_the_last_value
                  (fun _ => Some (fun _ _ =>
                     Fulfilled (Stream (mkObservable [Number 1; Number 2] Completes))))
                  nest_adapter (rpc_request "1" "count" (Object []))
                  (String "count") _ eq_refl eq_refl)
           _ eq_refl eq_refl).
Defined.

(** A body without a [method] member is looked up as [undefined]; when the
    registry has nothing for it, the answer is the 404 envelope with the
    message ["Method not found: undefined"]. *)
Theorem missing_method_member :
  forall reg app props headers,
    lookup "method" props = None ->
    reg Undefined = None ->
    handle reg app (mkRequest (Object props) headers) =
    ([mkHttpResponse 200
        (error_envelope (field (Object props) "id") (Number 404) Undefined
           (String "Method not found: undefined"))],
     Fulfilled tt).
Proof.
  intros reg app props headers Hl Hreg.
  apply (handle_not_found reg app (mkRequest (Object props) headers) Undefined);
    [|exact Hreg|reflexivity].
  simpl. rewrite Hl. reflexivity.
Qed.

Lemma missing_method_member_witness :
  handle test_registry nest_adapter
    (mkRequest (Object [("id", Number 3)]) no_headers) =
  ([mkHttpResponse 200
      (error_envelope (Number 3) (Number 404) Undefined
         (String "Method not found: undefined"))],
   Fulfilled tt).
Proof.
  exact (missing_method_member test_registry nest_adapter [("id", Number 3)]
           no_headers eq_refl eq_refl).
Defined.

(** A request without an [id] member is answered like any other: with
    the 404 envelope when its method name is unknown, with the result when
    its handler resolves.  The envelope's [id] is [undefined], so the JSON
    text of whatever is written has no [id] member. *)
Theorem missing_id_member :
  forall reg app rq,
    getProp (body rq) "id" = Ok Undefined ->
    (forall r,
        In r (fst (handle reg app rq)) ->
        field (payload r) "id" = Undefined /\
        hasField "id" (wire (payload r)) = false) /\
    (forall name,
        getProp (body rq) "method" = Ok (String name) ->
        reg (String name) = None ->
        handle reg app rq =
        ([mkHttpResponse 200
            (error_envelope Undefined (Number 404) Undefined
               (String ("Method not found: " ++ name)))],
         Fulfilled tt)) /\
    (forall m h v,
        getProp (body rq) "method" = Ok m ->
        reg m = Some h ->
        h (field (body rq) "params") (mkJsonRpcContext rq (getHttpServer app))
          = Fulfilled (Plain v) ->
        handle reg app rq =
        ([mkHttpResponse 200 (success_envelope Undefined v)], Fulfilled tt)).
Proof.
  intros reg app rq Hi.
  apply getProp_ok_field in Hi.
  split; [|split].
  - intros r Hin.
    destruct (handle_sent reg app rq) as [Hnil|[env [Hsent Hshape]]].
    + rewrite Hnil in Hin. destruct Hin.
    + rewrite Hsent in Hin. destruct Hin as [<-|[]]. simpl.
      rewrite Hi in Hshape.
      destruct Hshape as [[v ->]|[c [d [m ->]]]]; split; try reflexivity.
      destruct v; reflexivity.
  - intros name Hm Hreg.
    rewrite (handle_not_found _ _ _ _ name Hm Hreg eq_refl), Hi. reflexivity.
  - intros m h v Hm Hreg Hh.
    rewrite (handle_found _ _ _ _ _ Hm Hreg), Hh, Hi. reflexivity.
Qed.

Lemma missing_id_member_witness :
  handle test_registry nest_adapter
    (mkRequest (Object [("method", String "test.invoke");
                        ("params", Object [("a", Number 1)])]) no_headers) =
  ([mkHttpResponse 200 (success_envelope Undefined (Object [("a", Number 1)]))],
   Fulfilled tt).
Proof.
  exact (proj2 (proj2 (missing_id_member test_registry nest_adapter
                  (mkRequest (Object [("method", String "test.invoke");
                                      ("params", Object [("a", Number 1)])])
                     no_headers) eq_refl))
           (String "test.invoke") invoke_handler (Object [("a", Number 1)])
           eq_refl eq_refl eq_refl).
Defined.

(** The context the route hands to a handler reads this request's
    metadata: a handler that returns the Authorization metadata, as
    [TestService.injectContext] does, answers with the request's own
    header, and with an empty object in the JSON text when the request has
    none. *)
Theorem context_reads_the_request :
  forall reg app rq m,
    getProp (body rq) "method" = Ok m ->
    reg m = Some injectContext_handler ->
    handle reg app rq =
    ([mkHttpResponse 200
        (success_envelope (field (body rq) "id")
           (Object [("key", of_metadata (get rq "Authorization"))]))],
     Fulfilled tt) /\
    (get rq "Authorization" = None ->
     field (wire (success_envelope (field (body rq) "id")
                    (Object [("key", of_metadata (get rq "Authorization"))])))
       "result" = Object []).
Proof.
  intros reg app rq m Hm Hreg. split.
  - rewrite (handle_found _ _ _ _ _ Hm Hreg). reflexivity.
  - intros ->. destruct (field (body rq) "id"); reflexivity.
Qed.

Lemma context_reads_the_request_witness :
  handle test_registry nest_adapter
    (mkRequest (Object [("id", String "9"); ("method", String "test.injectContext")])
       (fun k => if String.eqb k "Authorization" then Some "Bearer t" else None)) =
  ([mkHttpResponse 200
      (success_envelope (String "9") (Object [("key", String "Bearer t")]))],
   Fulfilled tt).
Proof.
  exact (proj1 (context_reads_the_request test_registry nest_adapter
                  (mkRequest (Object [("id", String "9");
                                      ("method", String "test.injectContext")])
                     (fun k => if String.eqb k "Authorization"
                               then Some "Bearer t" else None))
                  (String "test.injectContext") eq_refl eq_refl)).
Defined.

(** A request whose parsed body is [null] or [undefined] is not answered:
    reading [req.body.method] throws before anything else happens, whatever
    the registry holds, so the route's promise rejects with no response
    written. *)
Theorem request_without_body_is_not_answered :
  forall reg app rq,
    nullish (body rq) = true ->
    fst (handle reg app rq) = [] /\
    exists e, snd (handle reg app rq) = Rejected e /\
              field e "name" = String "TypeError".
Proof.
  intros reg app rq Hb. rewrite (handle_body_nullish _ _ _ Hb).
  split; [reflexivity|]. eexists. split; reflexivity.
Qed.

Lemma request_without_body_is_not_answered_witness :
  fst (handle test_registry nest_adapter (mkRequest Undefined no_headers)) = [] /\
  exists e,
    snd (handle test_registry nest_adapter (mkRequest Undefined no_headers))
      = Rejected e /\
    field e "name" = String "TypeError".
Proof.
  exact (request_without_body_is_not_answered test_registry nest_adapter
           (mkRequest Undefined no_headers) eq_refl).
Defined.

(* ================================================================== *)
(** ** More on the lifecycle *)
(* ================================================================== *)

(** [listen] by the two guards and the outcome of the bind. *)
Lemma listen_cases (W : Type) (L : HttpLayer W) (this : JsonRpcServer) (w : W) :
  let o := options this in
  let app := listen_app o in
  let created :=
    match adapter o with
    | Some _ => []
    | None => [ENewExpressAdapter; EInitHttpServer OwnExpressAdapter]
    end in
  listen this w =
  match port o with
  | None =>
      mkRun this w (created ++ [EPost app (path o); ECallback])%list (Fulfilled tt)
  | Some p =>
      match app_listen app p (hostname o) w with
      | (Ok (srv, CbInvoked), w') =>
          mkRun (set_server this (Some srv)) w'
            (created ++ [EPost app (path o); EListen app p (hostname o); ECallback])%list
            (Fulfilled tt)
      | (Ok (srv, CbNotInvoked), w') =>
          mkRun (set_server this (Some srv)) w'
            (created ++ [EPost app (path o); EListen app p (hostname o)])%list
            Pending
      | (Throw e, w') =>
          mkRun this w'
            (created ++ [EPost app (path o); EListen app p (hostname o)])%list
            (Rejected e)
      end
  end.
Proof.
  unfold listen, listen_app.
  destruct (adapter (options this)) as [a|];
    destruct (port (options this)) as [p|]; try reflexivity;
    destruct (hostname (options this)) as [h|];
    destruct (app_listen _ p _ w) as [[[srv [|]]|e] w']; reflexivity.
Qed.

(** [listen] with a port: what is bound and what is stored. *)
Lemma listen_with_port (W : Type) (L : HttpLayer W) (this : JsonRpcServer)
    (w : W) p :
  port (options this) = Some p ->
  let o := options this in
  let r := listen this w in
  filter is_listen (trace r) = [EListen (listen_app o) p (hostname o)] /\
  options (this_after r) = o /\
  layer_after r = snd (app_listen (listen_app o) p (hostname o) w) /\
  match fst (app_listen (listen_app o) p (hostname o) w) with
  | Ok (srv, _) => server (this_after r) = Some srv
  | Throw _ => this_after r = this
  end.
Proof.
  intros Hp o r. subst r o. rewrite listen_cases. cbv zeta. rewrite Hp.
  destruct (adapter (options this));
    destruct (app_listen _ p _ w) as [[[srv [|]]|e] w'];
    repeat split; reflexivity.
Qed.

(** [listen] without a port changes nothing but the mounted routes. *)
Lemma listen_without_port (W : Type) (L : HttpLayer W) (this : JsonRpcServer)
    (w : W) :
  port (options this) = None ->
  this_after (listen this w) = this /\ layer_after (listen this w) = w.
Proof.
  intros Hp. rewrite listen_cases. cbv zeta. rewrite Hp.
  split; reflexivity.
Qed.

(** Whatever the options and the HTTP layer, [listen] mounts the route
    exactly once, at the configured path, on the supplied adapter if there
    is one and on an adapter of its own otherwise; it creates an adapter
    exactly when none is supplied; and nothing is bound and no callback
    runs before the route is mounted. *)
Theorem listen_mounts_the_route_once :
  forall (W : Type) (L : HttpLayer W) (this : JsonRpcServer) (w : W),
    let o := options this in
    let r := listen this w in
    filter is_post (trace r) = [EPost (listen_app o) (path o)] /\
    (In ENewExpressAdapter (trace r) <-> adapter o = None) /\
    exists before after,
      trace r = (before ++ EPost (listen_app o) (path o) :: after)%list /\
      existsb is_listen before = false /\
      existsb is_callback before = false.
Proof.
  intros W L this w o r. subst r. rewrite listen_cases. cbv zeta. fold o.
  destruct (adapter o) as [a|] eqn:Ha; destruct (port o) as [p|];
    try destruct (app_listen _ p _ w) as [[[srv [|]]|e] w'];
    cbn [trace app]; (split; [reflexivity|]); split.
  all: try solve [split; [intros Hin; exfalso; simpl in Hin;
                          repeat (destruct Hin as [Hin|Hin]; [discriminate|]);
                          exact Hin
                         |discriminate]].
  all: try solve [split; [reflexivity | intros _; left; reflexivity]].
  all: try solve [exists []; eexists; repeat split; reflexivity].
  all: solve [exists [ENewExpressAdapter; EInitHttpServer OwnExpressAdapter];
              eexists; repeat split; reflexivity].
Qed.

(** [listen] calls the bind exactly when a port is configured: once, on
    the application the route is mounted on, with the port and the
    configured hostname (or none).  When the bind returns, what it returns
    is stored in the [server] field and [listen] completes as the bind's
    callback is invoked; when the bind throws, the server object is left as
    it was, the callback is not called and [listen] rejects with what was
    thrown.  Without a port nothing is bound, the server object and the
    HTTP layer stay as they were, and [listen] completes. *)
Theorem listen_binds_iff_port :
  forall (W : Type) (L : HttpLayer W) (this : JsonRpcServer) (w : W),
    let o := options this in
    let r := listen this w in
    match port o with
    | Some p =>
        filter is_listen (trace r) = [EListen (listen_app o) p (hostname o)] /\
        match app_listen (listen_app o) p (hostname o) w with
        | (Ok (srv, reply), w') =>
            server (this_after r) = Some srv /\
            layer_after r = w' /\
            settled r = invokeAsync reply
        | (Throw e, w') =>
            this_after r = this /\
            layer_after r = w' /\
            settled r = Rejected e /\
            existsb is_callback (trace r) = false
        end
    | None =>
        filter is_listen (trace r) = [] /\
        this_after r = this /\
        layer_after r = w /\
        settled r = Fulfilled tt
    end.
Proof.
  intros W L this w o r. subst r. rewrite listen_cases. cbv zeta. fold o.
  destruct (port o) as [p|].
  - destruct (adapter o) as [a|];
      destruct (app_listen _ p _ w) as [[[srv [|]]|e] w'];
      repeat split; reflexivity.
  - destruct (adapter o) as [a|]; repeat split; reflexivity.
Qed.



(** [close] never changes the server object, so the [server] field stays
    set after a close.  It asks a listener to close exactly when a port is
    configured and the field holds a listener, and then its outcome is that
    of the listener's completion callback; in every other case it touches
    nothing. *)
Theorem close_never_clears_the_server :
  forall (W : Type) (L : HttpLayer W) (this : JsonRpcServer) (w : W),
    let c := close this w in
    this_after c = this /\
    match port (options this), server this with
    | Some _, Some srv =>
        trace c = [EServerClose srv] /\
        layer_after c = snd (server_close srv w) /\
        settled c = invokeAsync (fst (server_close srv w))
    | Some _, None => trace c = [] /\ layer_after c = w /\ settled c = Pending
    | None, _ => trace c = [] /\ layer_after c = w /\ settled c = Fulfilled tt
    end.
Proof.
  intros W L this w c. subst c. unfold close.
  destruct (port (options this)) as [p|]; [|repeat split; reflexivity].
  destruct (server this) as [srv|]; [|repeat split; reflexivity].
  destruct (server_close srv w) as [reply w']. repeat split; reflexivity.
Qed.

(** After [listen] on options with a port, when the bind returned a
    listener, [close] closes that very listener, also when the bind's
    callback was never invoked, and a second [close] asks the same listener
    again.  When the bind threw, [listen] stored nothing: [close] then
    acts on the server object as it was before, and calls nothing if its
    [server] field was [null]. *)
Theorem close_closes_what_listen_bound :
  forall (W : Type) (L : HttpLayer W) (this : JsonRpcServer) (w : W) p,
    port (options this) = Some p ->
    let o := options this in
    let r := listen this w in
    let c1 := close (this_after r) (layer_after r) in
    let c2 := close (this_after c1) (layer_after c1) in
    match app_listen (listen_app o) p (hostname o) w with
    | (Ok (srv, reply), w') =>
        trace c1 = [EServerClose srv] /\
        settled c1 = invokeAsync (fst (server_close srv w')) /\
        trace c2 = [EServerClose srv]
    | (Throw e, w') =>
        c1 = close this w' /\
        (server this = None -> trace c1 = [] /\ settled c1 = Pending)
    end.
Proof.
  intros W L this w p Hp o r c1 c2.
  destruct (listen_with_port W L this w p Hp) as [_ [Ho [Hw Hsrv]]].
  cbv zeta in Ho, Hw, Hsrv. fold o r in Ho, Hw, Hsrv.
  destruct (app_listen (listen_app o) p (hostname o) w) as [[[srv reply]|e] w'];
    cbn [fst snd] in Hw, Hsrv.
  - assert (Hport : port (options (this_after r)) = Some p)
      by (rewrite Ho; exact Hp).
    pose proof (close_with_listener (this_after r) (layer_after r) p srv
                  Hport Hsrv) as Hc1.
    fold c1 in Hc1.
    assert (Hc1this : this_after c1 = this_after r) by (rewrite Hc1; reflexivity).
    subst c2. rewrite Hc1this.
    rewrite (close_with_listener (this_after r) (layer_after c1) p srv Hport Hsrv).
    rewrite Hc1, Hw. repeat split; reflexivity.
  - subst c1. rewrite Hsrv, Hw. split; [reflexivity|].
    intros Hnone. rewrite (close_without_listener this w' p Hp Hnone).
    split; reflexivity.
Qed.

Lemma close_closes_what_listen_bound_witness :
  let r := listen (new_JsonRpcServer standalone_options test_registry) tt
             (H := SilentLayer) in
  let c1 := close (this_after r) (layer_after r) (H := SilentLayer) in
  let c2 := close (this_after c1) (layer_after c1) (H := SilentLayer) in
  trace c1 = [EServerClose (HttpServerOf OwnExpressAdapter)] /\
  settled c1 = Pending /\
  trace c2 = [EServerClose (HttpServerOf OwnExpressAdapter)].
Proof.
  exact (close_closes_what_listen_bound unit SilentLayer
           (new_JsonRpcServer standalone_options test_registry) tt 8080 eq_refl).
Defined.

(** After a bind that threw on a fresh server, [close] finds no listener:
    it calls nothing and stays pending, as before any [listen]. *)
Example close_after_a_bad_port :
  let r := listen (new_JsonRpcServer bad_port_options test_registry) [] in
  close (this_after r) (layer_after r) =
  mkRun (new_JsonRpcServer bad_port_options test_registry) [] [] Pending.
Proof. reflexivity. Qed.

(** Without a port the transport never touches the HTTP layer beyond
    mounting its route: [listen] leaves the layer and the server object as
    they were, and any number of [close] calls complete and do nothing. *)
Theorem without_port_nothing_is_owned :
  forall (W : Type) (L : HttpLayer W) (this : JsonRpcServer) (w : W) n,
    port (options this) = None ->
    let r := listen this w in
    this_after r = this /\
    layer_after r = w /\
    close_times n (this_after r) (layer_after r) = repeat (Fulfilled tt) n /\
    close (this_after r) (layer_after r) = mkRun this w [] (Fulfilled tt).
Proof.
  intros W L this w n Hp r.
  destruct (listen_without_port W L this w Hp) as [Hthis Hw].
  fold r in Hthis, Hw. rewrite Hthis, Hw.
  repeat split.
  - apply close_times_without_port. exact Hp.
  - apply close_without_port. exact Hp.
Qed.

Lemma without_port_nothing_is_owned_witness :
  let r := listen (new_JsonRpcServer hybrid_options test_registry)
             [HttpServerOf nest_adapter] in
  this_after r = new_JsonRpcServer hybrid_options test_registry /\
  layer_after r = [HttpServerOf nest_adapter] /\
  close_times 3 (this_after r) (layer_after r) =
    repeat (Fulfilled tt) 3 /\
  close (this_after r) (layer_after r) =
    mkRun (new_JsonRpcServer hybrid_options test_registry)
      [HttpServerOf nest_adapter] [] (Fulfilled tt).
Proof.
  exact (without_port_nothing_is_owned (list HttpServer) ListLayer
           (new_JsonRpcServer hybrid_options test_registry)
           [HttpServerOf nest_adapter] 3 eq_refl).
Defined.

(** Neither [listen] nor [close] changes the options or the registry of
    the server: the only field they ever write is [server], and only
    [listen] writes it. *)
Theorem lifecycle_keeps_options_and_registry :
  forall (W : Type) (L : HttpLayer W) (this : JsonRpcServer) (w : W),
    options (this_after (listen this w)) = options this /\
    getHandlerByPattern (this_after (listen this w)) = getHandlerByPattern this /\
    this_after (close this w) = this.
Proof.
  intros W L this w. rewrite listen_cases. cbv zeta.
  destruct (port (options this)) as [p|];
    try destruct (app_listen _ p _ w) as [[[srv [|]]|e] w'];
    repeat split; try reflexivity.
  all: unfold close; destruct (port (options this)); try reflexivity;
    destruct (server this) as [srv'|]; try reflexivity;
    destruct (server_close srv' w); reflexivity.
Qed.

(** [listen] does not look at the [server] field: called again on a server
    with a port, it calls the bind once more, and when that bind returns a
    listener it overwrites the field with it, so a later [close] reaches
    the newer listener only. *)
Theorem second_listen_binds_again :
  forall (W : Type) (L : HttpLayer W) (this : JsonRpcServer) (w : W)
         p srv2 reply2 w2,
    port (options this) = Some p ->
    let o := options this in
    let r1 := listen this w in
    let r2 := listen (this_after r1) (layer_after r1) in
    app_listen (listen_app o) p (hostname o) (layer_after r1)
      = (Ok (srv2, reply2), w2) ->
    filter is_listen (trace r2) = [EListen (listen_app o) p (hostname o)] /\
    server (this_after r2) = Some srv2 /\
    trace (close (this_after r2) (layer_after r2)) = [EServerClose srv2].
Proof.
  intros W L this w p srv2 reply2 w2 Hp o r1 r2 Hbind.
  destruct (listen_with_port W L this w p Hp) as [_ [Ho _]].
  fold r1 in Ho. cbv zeta in Ho.
  assert (Hp1 : port (options (this_after r1)) = Some p)
    by (rewrite Ho; exact Hp).
  destruct (listen_with_port W L (this_after r1) (layer_after r1) p Hp1)
    as [Htr [Ho2 [_ Hsrv]]].
  cbv zeta in Htr, Hsrv, Ho2. rewrite Ho in Htr, Hsrv, Ho2.
  fold o r2 in Htr, Hsrv, Ho2. rewrite Hbind in Hsrv. cbn [fst] in Hsrv.
  repeat split; [exact Htr | exact Hsrv |].
  rewrite (close_with_listener (this_after r2) (layer_after r2) p srv2);
    [reflexivity| |exact Hsrv].
  rewrite Ho2. exact Hp.
Qed.

Lemma second_listen_binds_again_witness :
  let r1 := listen (new_JsonRpcServer standalone_options test_registry) [] in
  let r2 := listen (this_after r1) (layer_after r1) in
  filter is_listen (trace r2) = [EListen OwnExpressAdapter 8080 None] /\
  server (this_after r2) = Some (HttpServerOf OwnExpressAdapter) /\
  trace (close (this_after r2) (layer_after r2)) =
    [EServerClose (HttpServerOf OwnExpressAdapter)].
Proof.
  exact (second_listen_binds_again (list HttpServer) ListLayer
           (new_JsonRpcServer standalone_options test_registry) []
           8080 (HttpServerOf OwnExpressAdapter) CbInvoked
           [HttpServerOf OwnExpressAdapter; HttpServerOf OwnExpressAdapter]
           eq_refl eq_refl).
Defined.

(* ================================================================== *)
(** ** The module state of the test service *)
(* ================================================================== *)

Lemma since_reset_no_reset ops : existsb is_reset (since_reset ops) = false.
Proof.
  induction ops as [|op rest IH]; [reflexivity|]. simpl.
  destruct (existsb is_reset rest) eqn:Hr; [exact IH|].
  destruct (is_reset op) eqn:Ho; [exact Hr|].
  simpl. rewrite Ho, Hr. reflexivity.
Qed.

(** Up to 2^53 in magnitude an increment is exact; at 2^53 it is lost. *)
Lemma js_increment_exact z :
  - two53 <= z -> z < two53 -> js_increment z = z + 1.
Proof.
  intros Hlo Hhi. unfold js_increment, nearest_double, nearest_double_nonneg.
  assert (H53 : 0 < two53) by reflexivity.
  destruct (Z.ltb_spec (z + 1) 0).
  - destruct (Z.leb_spec (- (z + 1)) two53); lia.
  - destruct (Z.leb_spec (z + 1) two53); lia.
Qed.

Lemma js_increment_saturates : js_increment two53 = two53.
Proof. vm_compute. reflexivity. Qed.

(** What a sequence without a reset does to the flags. *)
Lemma run_flags_without_reset ops :
  forall s,
    existsb is_reset ops = false ->
    pipeCalled (run ops s) = (pipeCalled s || existsb is_pipe ops) /\
    guardCaled (run ops s) = guardCaled s /\
    interceptorCalled (run ops s) =
      (interceptorCalled s || existsb is_intercept ops).
Proof.
  induction ops as [|op rest IH]; intros s Hr.
  - simpl. rewrite !orb_false_r. auto.
  - simpl in Hr. apply orb_false_elim in Hr as [Ho Hr].
    cbn [run]. destruct (IH (step op s) Hr) as [Hp [Hg Hi]].
    rewrite Hp, Hg, Hi.
    destruct op; try discriminate; destruct s; cbn;
      rewrite ?orb_true_r; auto.
Qed.

Lemma step_service_count op s :
  is_reset op = false ->
  serviceConstructorCount (step op s) =
  if is_service_new op then js_increment (serviceConstructorCount s)
  else serviceConstructorCount s.
Proof. destruct op; destruct s; try discriminate; reflexivity. Qed.

Lemma step_interceptor_count op s :
  is_reset op = false ->
  interceptorConstructorCount (step op s) =
  if is_interceptor_new op then js_increment (interceptorConstructorCount s)
  else interceptorConstructorCount s.
Proof. destruct op; destruct s; try discriminate; reflexivity. Qed.

(** What a sequence without a reset does to the counts, as long as they
    stay within 2^53. *)
Lemma run_service_count ops :
  forall s,
    existsb is_reset ops = false ->
    - two53 <= serviceConstructorCount s ->
    serviceConstructorCount s +
      Z.of_nat (List.length (filter is_service_new ops)) <= two53 ->
    serviceConstructorCount (run ops s) =
      serviceConstructorCount s +
      Z.of_nat (List.length (filter is_service_new ops)).
Proof.
  induction ops as [|op rest IH]; intros s Hr Hlo Hhi.
  - simpl. lia.
  - simpl in Hr. apply orb_false_elim in Hr as [Ho Hr].
    cbn [run filter] in *.
    pose proof (step_service_count op s Ho) as Hstep.
    destruct (is_service_new op); cbn [List.length] in *;
      rewrite ?Nat2Z.inj_succ in *.
    + rewrite (js_increment_exact (serviceConstructorCount s)) in Hstep by lia.
      rewrite IH by (try assumption; rewrite Hstep; lia).
      rewrite Hstep. lia.
    + rewrite IH by (try assumption; rewrite Hstep; lia).
      rewrite Hstep. lia.
Qed.

Lemma run_interceptor_count ops :
  forall s,
    existsb is_reset ops = false ->
    - two53 <= interceptorConstructorCount s ->
    interceptorConstructorCount s +
      Z.of_nat (List.length (filter is_interceptor_new ops)) <= two53 ->
    interceptorConstructorCount (run ops s) =
      interceptorConstructorCount s +
      Z.of_nat (List.length (filter is_interceptor_new ops)).
Proof.
  induction ops as [|op rest IH]; intros s Hr Hlo Hhi.
  - simpl. lia.
  - simpl in Hr. apply orb_false_elim in Hr as [Ho Hr].
    cbn [run filter] in *.
    pose proof (step_interceptor_count op s Ho) as Hstep.
    destruct (is_interceptor_new op); cbn [List.length] in *;
      rewrite ?Nat2Z.inj_succ in *.
    + rewrite (js_increment_exact (interceptorConstructorCount s)) in Hstep
        by lia.
      rewrite IH by (try assumption; rewrite Hstep; lia).
      rewrite Hstep. lia.
    + rewrite IH by (try assumption; rewrite Hstep; lia).
      rewrite Hstep. lia.
Qed.

(** A reset isolates what follows from what came before: the state after
    any sequence of operations is the state after the operations that
    follow the last reset, started from the initial state. *)
Theorem reset_forgets_history :
  forall ops s,
    run ops s =
    run (since_reset ops)
      (if existsb is_reset ops then initialModuleState else s).
Proof.
  induction ops as [|op rest IH]; intros s; [reflexivity|].
  cbn [run since_reset existsb].
  destruct (existsb is_reset rest) eqn:Hr.
  - rewrite IH, orb_true_r. reflexivity.
  - destruct op; try reflexivity.
Qed.

(** The state after any sequence of operations, field by field: the two
    flags say whether a pipe transformed, an interceptor intercepted since
    the last reset (or were set before, when there was no reset).  The two
    counts are the numbers of constructions since then, added to the counts
    before when there was no reset, as long as that stays within 2^53,
    where a JavaScript number still counts by ones; at 2^53 a further
    construction leaves the count where it is. *)
Theorem state_after_operations :
  forall ops s,
    let s0 := if existsb is_reset ops then initialModuleState else s in
    let recent := since_reset ops in
    pipeCalled (run ops s) = (pipeCalled s0 || existsb is_pipe recent) /\
    interceptorCalled (run ops s) =
      (interceptorCalled s0 || existsb is_intercept recent) /\
    (- two53 <= serviceConstructorCount s0 ->
     serviceConstructorCount s0 +
       Z.of_nat (List.length (filter is_service_new recent)) <= two53 ->
     serviceConstructorCount (run ops s) =
       serviceConstructorCount s0 +
       Z.of_nat (List.length (filter is_service_new recent))) /\
    (- two53 <= interceptorConstructorCount s0 ->
     interceptorConstructorCount s0 +
       Z.of_nat (List.length (filter is_interceptor_new recent)) <= two53 ->
     interceptorConstructorCount (run ops s) =
       interceptorConstructorCount s0 +
       Z.of_nat (List.length (filter is_interceptor_new recent))) /\
    (forall s',
        serviceConstructorCount s' = two53 ->
        serviceConstructorCount (step OpServiceConstructor s') = two53) /\
    (forall s',
        interceptorConstructorCount s' = two53 ->
        interceptorConstructorCount (step OpInterceptorConstructor s') = two53).
Proof.
  intros ops s s0 recent.
  assert (Hrun : run ops s = run recent s0).
  { subst s0 recent. clear. revert s.
    induction ops as [|op rest IH]; intros s; [reflexivity|].
    cbn [run since_reset existsb].
    destruct (existsb is_reset rest) eqn:Hr.
    - rewrite IH, orb_true_r. reflexivity.
    - destruct op; try reflexivity. }
  rewrite Hrun.
  destruct (run_flags_without_reset recent s0 (since_reset_no_reset ops))
    as [Hp [_ Hi]].
  repeat split; try assumption.
  - apply run_service_count. apply since_reset_no_reset.
  - apply run_interceptor_count. apply since_reset_no_reset.
  - intros s' Hs'. cbn. rewrite Hs'. apply js_increment_saturates.
  - intros s' Hs'. cbn. rewrite Hs'. apply js_increment_saturates.
Qed.

Lemma state_after_operations_witness :
  serviceConstructorCount
    (run [OpServiceConstructor; OpReset; OpServiceConstructor;
          OpPipeTransform Null; OpServiceConstructor]
       (mkDecorationsState false false false 7 7)) = 2.
Proof.
  exact (proj1 (proj2 (proj2 (state_after_operations
                  [OpServiceConstructor; OpReset; OpServiceConstructor;
                   OpPipeTransform Null; OpServiceConstructor]
                  (mkDecorationsState false false false 7 7))))
           ltac:(vm_compute; discriminate) ltac:(vm_compute; discriminate)).
Defined.

(** Nothing in the file sets [guardCaled]: from the initial state it is
    false after any sequence of operations, guard checks included; from
    another state it keeps its value until a reset makes it false. *)
Theorem guardCaled_is_never_set :
  forall ops s,
    guardCaled (run ops s) =
    (if existsb is_reset ops then false else guardCaled s) /\
    guardCaled (run ops initialModuleState) = false.
Proof.
  assert (Hgen : forall ops s,
             guardCaled (run ops s) =
             if existsb is_reset ops then false else guardCaled s).
  { induction ops as [|op rest IH]; intros s; [reflexivity|].
    cbn [run existsb]. rewrite IH.
    destruct op; destruct (existsb is_reset rest); reflexivity. }
  intros ops s. split; [apply Hgen|].
  rewrite Hgen. destruct (existsb is_reset ops); reflexivity.
Qed.

(** The guard lets a call through exactly when the context is an HTTP or
    an RPC one and its Authorization metadata is a non-empty string: an
    empty header, a missing one and any other kind of context are denied.
    For the context the route builds, that is the Authorization header of
    the request itself. *)
Theorem guard_needs_authorization :
  forall ctx,
    (TestGuard_canActivate ctx = true <->
     exists s,
       s <> "" /\
       ((getType ctx = "http" /\
         get (switchToHttp_getRequest ctx) "Authorization" = Some s) \/
        (getType ctx = "rpc" /\
         getMetadataByKey (switchToRpc_getContext ctx) "Authorization" = Some s))) /\
    (forall app rq,
        TestGuard_canActivate (rpc_execution_context app rq) = true <->
        exists s, s <> "" /\ get rq "Authorization" = Some s).
Proof.
  assert (Hmeta : forall m : option string,
             (if truthy (of_metadata m) then true else false) = true <->
             exists s, s <> "" /\ m = Some s).
  { intros [s|]; simpl.
    - destruct (String.eqb s "") eqn:Hs; simpl; split.
      + discriminate.
      + intros [s' [Hne [= ->]]]. apply String.eqb_eq in Hs. contradiction.
      + intros _. exists s. split; [|reflexivity].
        intros ->. discriminate.
      + reflexivity.
    - split; [discriminate|]. intros [s [_ Hs]]. discriminate. }
  intros ctx. split.
  - unfold TestGuard_canActivate, getMetadataFromContext. rewrite Hmeta.
    destruct (String.eqb (getType ctx) "http") eqn:Hh.
    + apply String.eqb_eq in Hh. split.
      * intros [s [Hne Hs]]. exists s. auto.
      * intros [s [Hne [[_ Hs]|[Hr _]]]]; [exists s; auto|].
        rewrite Hh in Hr. discriminate.
    + destruct (String.eqb (getType ctx) "rpc") eqn:Hr.
      * apply String.eqb_eq in Hr. split.
        -- intros [s [Hne Hs]]. exists s. auto.
        -- intros [s [Hne [[Hh' _]|[_ Hs]]]]; [|exists s; auto].
           rewrite Hh' in Hh. discriminate.
      * split.
        -- intros [s [_ Hs]]. discriminate.
        -- intros [s [_ [[Hh' _]|[Hr' _]]]].
           ++ rewrite Hh' in Hh. discriminate.
           ++ rewrite Hr' in Hr. discriminate.
  - intros app rq. unfold TestGuard_canActivate. apply Hmeta.
Qed.
